(** * LwM2M device session driver: a shallow embedding and its properties

    The development follows [driver.py] of the
    [lightweight_m_2_m_client] package: the [LwM2MClient] class with its
    three operations ([register], [execute_command], [get_device_info])
    and the three HTTP handlers that call them.

    The driver talks to two libraries, aiocoap (CoAP contexts and
    request/response exchanges) and aiohttp (the HTTP listener).  What
    these libraries answer is not decided by the driver, so it is given
    by an environment [Env]; what the driver asks of them is recorded in
    a trace of events.  Python exceptions are the error side of the
    result; [try ... except Exception] is [try_except].  A call runs from
    its first statement to its [return] or [raise]: the cancellation of a
    task and the interleaving of several requests are not modelled. *)

From Stdlib Require Import List String Ascii Bool Arith ZArith NArith Lia.
From Stdlib.Strings Require Import Byte.
From Stdlib Require Import DecimalString.
Import ListNotations.

Set Warnings "-register-all".
Local Open Scope string_scope.
Local Open Scope list_scope.

(** ** Python values that reach the driver *)

(** What [await request.json()] can return: a JSON document as Python
    builds it.  A [dict] is kept as an association list with the first
    binding of a key being the one looked up.  Of a number only being
    zero or not matters to the driver; it is kept as an integer. *)
Inductive json : Type :=
| JNull
| JBool (b : bool)
| JNum (n : Z)
| JStr (s : string)
| JArr (items : list json)
| JObj (members : list (string * json)).

(** Python exceptions.  [Exception msg] is the one the driver raises
    itself; the next three are raised by the interpreter when an
    operation meets a value of the wrong type; [LibraryError] stands for
    whatever aiocoap, aiohttp or the operating system raise.  All of
    them derive from [Exception], and so are caught by
    [except Exception]. *)
Inductive Exn : Type :=
| Exception (msg : string)
| TypeError
| AttributeError
| KeyError (key : string)
| LibraryError (what : string).

(** Text decoded from the wire, as its sequence of Unicode code points. *)
Definition Text := list N.

(** ** [bytes.decode(errors="ignore")]

    The default codec is UTF-8.  At each position the decoder reads one
    well-formed sequence (shortest form only, no surrogate, at most
    U+10FFFF) and yields its code point; where no well-formed sequence
    starts, the [ignore] handler yields nothing and decoding goes on
    behind the offending bytes.  CPython hands the handler the maximal
    ill-formed prefix; its bytes after the first are continuation bytes,
    which start no sequence, so resuming one byte further gives the same
    string. *)
Definition in_range (lo hi b : N) : bool := (N.leb lo b && N.leb b hi)%bool.

Definition is_continuation (b : N) : bool := in_range 0x80 0xBF b.

(** Bounds on the second byte of a three-byte sequence. *)
Definition second_of_three (b0 b1 : N) : bool :=
  if N.eqb b0 0xE0 then in_range 0xA0 0xBF b1
  else if N.eqb b0 0xED then in_range 0x80 0x9F b1
  else is_continuation b1.

(** Bounds on the second byte of a four-byte sequence. *)
Definition second_of_four (b0 b1 : N) : bool :=
  if N.eqb b0 0xF0 then in_range 0x90 0xBF b1
  else if N.eqb b0 0xF4 then in_range 0x80 0x8F b1
  else is_continuation b1.

Local Open Scope N_scope.

(** The decoder, with the text [sub] that the error handler puts in the
    place of an offending byte: nothing for [ignore]. *)
Fixpoint decode_with (sub : Text) (bs : list byte) : Text :=
  match bs with
  | [] => []
  | x0 :: r0 =>
    let b0 := Byte.to_N x0 in
    if b0 <? 0x80 then b0 :: decode_with sub r0
    else if in_range 0xC2 0xDF b0 then
      match r0 with
      | x1 :: r1 =>
        let b1 := Byte.to_N x1 in
        if is_continuation b1
        then (b0 - 0xC0) * 64 + (b1 - 0x80) :: decode_with sub r1
        else sub ++ decode_with sub r0
      | _ => sub ++ decode_with sub r0
      end
    else if in_range 0xE0 0xEF b0 then
      match r0 with
      | x1 :: (x2 :: r2) =>
        let b1 := Byte.to_N x1 in
        let b2 := Byte.to_N x2 in
        if (second_of_three b0 b1 && is_continuation b2)%bool
        then (b0 - 0xE0) * 4096 + (b1 - 0x80) * 64 + (b2 - 0x80)
             :: decode_with sub r2
        else sub ++ decode_with sub r0
      | _ => sub ++ decode_with sub r0
      end
    else if in_range 0xF0 0xF4 b0 then
      match r0 with
      | x1 :: (x2 :: (x3 :: r3)) =>
        let b1 := Byte.to_N x1 in
        let b2 := Byte.to_N x2 in
        let b3 := Byte.to_N x3 in
        if (second_of_four b0 b1 && is_continuation b2
            && is_continuation b3)%bool
        then (b0 - 0xF0) * 262144 + (b1 - 0x80) * 4096
             + (b2 - 0x80) * 64 + (b3 - 0x80)
             :: decode_with sub r3
        else sub ++ decode_with sub r0
      | _ => sub ++ decode_with sub r0
      end
    else sub ++ decode_with sub r0
  end.

Definition decode_ignore (bs : list byte) : Text := decode_with [] bs.

(** One well-formed sequence at the head of [bs]: its code point and the
    bytes behind it. *)
Definition read_sequence (bs : list byte) : option (N * list byte) :=
  match bs with
  | [] => None
  | x0 :: r0 =>
    let b0 := Byte.to_N x0 in
    if b0 <? 0x80 then Some (b0, r0)
    else if in_range 0xC2 0xDF b0 then
      match r0 with
      | x1 :: r1 =>
        let b1 := Byte.to_N x1 in
        if is_continuation b1
        then Some ((b0 - 0xC0) * 64 + (b1 - 0x80), r1)
        else None
      | _ => None
      end
    else if in_range 0xE0 0xEF b0 then
      match r0 with
      | x1 :: (x2 :: r2) =>
        let b1 := Byte.to_N x1 in
        let b2 := Byte.to_N x2 in
        if (second_of_three b0 b1 && is_continuation b2)%bool
        then Some ((b0 - 0xE0) * 4096 + (b1 - 0x80) * 64 + (b2 - 0x80), r2)
        else None
      | _ => None
      end
    else if in_range 0xF0 0xF4 b0 then
      match r0 with
      | x1 :: (x2 :: (x3 :: r3)) =>
        let b1 := Byte.to_N x1 in
        let b2 := Byte.to_N x2 in
        let b3 := Byte.to_N x3 in
        if (second_of_four b0 b1 && is_continuation b2
            && is_continuation b3)%bool
        then Some ((b0 - 0xF0) * 262144 + (b1 - 0x80) * 4096
                   + (b2 - 0x80) * 64 + (b3 - 0x80), r3)
        else None
      | _ => None
      end
    else None
  end.

(** [str.encode()] on one code point, for the Unicode scalar values. *)
Definition byte_of_N (n : N) : byte :=
  match Byte.of_N n with
  | Some b => b
  | None => x00
  end.

Definition is_scalar (c : N) : bool :=
  ((c <? 0xD800) || (0xDFFF <? c) && (c <=? 0x10FFFF))%bool.

Definition encode_point (c : N) : list byte :=
  if c <? 0x80 then [byte_of_N c]
  else if c <? 0x800 then
    [byte_of_N (0xC0 + c / 64); byte_of_N (0x80 + c mod 64)]
  else if c <? 0x10000 then
    [byte_of_N (0xE0 + c / 4096); byte_of_N (0x80 + (c / 64) mod 64);
     byte_of_N (0x80 + c mod 64)]
  else
    [byte_of_N (0xF0 + c / 262144); byte_of_N (0x80 + (c / 4096) mod 64);
     byte_of_N (0x80 + (c / 64) mod 64); byte_of_N (0x80 + c mod 64)].

Definition encode (t : Text) : list byte := flat_map encode_point t.

(** The permissive decoding as section 4.4 of the specification words
    it, "undecodable bytes become best-effort placeholder characters":
    every byte at which no well-formed sequence starts yields the
    placeholder [p].  It is only compared with [decode_ignore]. *)
Definition decode_placeholder (p : N) (bs : list byte) : Text :=
  decode_with [p] bs.

Local Close Scope N_scope.

(** ** Messages, responses and the environment *)

Definition Bytes := list byte.

Inductive Method : Type := GET | POST.

(** [Message(code=..., uri=..., uri_query=..., payload=...)]: the keyword
    arguments as the driver gives them, [None] for one it leaves out. *)
Record Message : Type := mkMessage {
  code : Method;
  uri : string;
  uri_query : option (list string);
  payload : option Bytes
}.

(** A response as the driver reads it: [resp.code] (its number and its
    [name]), [resp.payload], and [resp.opt.location_path] when the
    options object has that attribute. *)
Record Response : Type := mkResponse {
  resp_code : N;
  resp_code_name : string;
  resp_payload : Bytes;
  resp_location_path : option (list string)
}.

(** A messaging context is known by its identity. *)
Definition Ctx := nat.

Inductive Event : Type :=
| EvContext (host : string) (port : Z) (outcome : Exn + Ctx)
| EvRequest (ctx : Ctx) (msg : Message) (outcome : Exn + Response).

Definition Trace := list Event.

(** The environment decides, from all that happened so far, whether a
    context can be created ([None]: it can) and how an exchange ends. *)
Record Env : Type := mkEnv {
  create_outcome : Trace -> string -> Z -> option Exn;
  request_outcome : Trace -> Ctx -> Message -> Exn + Response
}.

(** A computation reads the environment and the trace so far, and gives
    the events it adds with its result or the exception it raises. *)
Definition M (A : Type) : Type := Env -> Trace -> list Event * (Exn + A).

Definition ret {A} (a : A) : M A := fun _ _ => ([], inr a).

Definition raise {A} (e : Exn) : M A := fun _ _ => ([], inl e).

Definition lift {A} (r : Exn + A) : M A := fun _ _ => ([], r).

Definition bind {A B} (m : M A) (f : A -> M B) : M B :=
  fun env tr =>
    match m env tr with
    | (evs, inl e) => (evs, inl e)
    | (evs, inr a) =>
      match f a env (tr ++ evs) with
      | (evs', r) => (evs ++ evs', r)
      end
    end.

(** [try: m  except Exception as e: h e] *)
Definition try_except {A} (m : M A) (h : Exn -> M A) : M A :=
  fun env tr =>
    match m env tr with
    | (evs, inl e) =>
      match h e env (tr ++ evs) with
      | (evs', r) => (evs ++ evs', r)
      end
    | (evs, inr a) => (evs, inr a)
    end.

Declare Scope py_scope.
Delimit Scope py_scope with py.
Notation "x <- m ;; k" := (bind m (fun x => k))
  (at level 61, m at next level, right associativity) : py_scope.
Local Open Scope py_scope.

(** [await Context.create_client_context(bind=(host, port))]: every
    successful call builds a new context object; its identity is the
    position of the creation in the trace. *)
Definition create_client_context (host : string) (port : Z) : M Ctx :=
  fun env tr =>
    match create_outcome env tr host port with
    | Some e => ([EvContext host port (inl e)], inl e)
    | None =>
      ([EvContext host port (inr (List.length tr))], inr (List.length tr))
    end.

(** [await ctx.request(req).response] *)
Definition request (ctx : Ctx) (req : Message) : M Response :=
  fun env tr =>
    ([EvRequest ctx req (request_outcome env tr ctx req)],
     request_outcome env tr ctx req).

(** ** Python operations on JSON values *)

Fixpoint dict_lookup {V} (key : string) (d : list (string * V)) : option V :=
  match d with
  | [] => None
  | (k, v) :: d' => if String.eqb k key then Some v else dict_lookup key d'
  end.

(** [d[key]] on a dict of the driver. *)
Definition dict_getitem {V} (d : list (string * V)) (key : string) : M V :=
  match dict_lookup key d with
  | Some v => ret v
  | None => raise (KeyError key)
  end.

(** [v == s] for a string literal [s]. *)
Definition eq_str (v : json) (s : string) : bool :=
  match v with
  | JStr t => String.eqb t s
  | _ => false
  end.

(** [s in v] for a string literal [s]. *)
Definition py_in (s : string) (v : json) : Exn + bool :=
  match v with
  | JObj d =>
    inr (match dict_lookup s d with Some _ => true | None => false end)
  | JArr l => inr (existsb (fun x => eq_str x s) l)
  | JStr t =>
    inr (match String.index 0 s t with Some _ => true | None => false end)
  | _ => inl TypeError
  end.

(** [v[s]] for a string literal [s]. *)
Definition py_getitem (v : json) (s : string) : Exn + json :=
  match v with
  | JObj d =>
    match dict_lookup s d with
    | Some x => inr x
    | None => inl (KeyError s)
    end
  | _ => inl TypeError
  end.

(** [isinstance(v, list)] *)
Definition is_list (v : json) : bool :=
  match v with
  | JArr _ => true
  | _ => false
  end.

(** [",".join(v)] for a list [v]: every item has to be a [str]. *)
Fixpoint strings_of (l : list json) : option (list string) :=
  match l with
  | [] => Some []
  | JStr s :: l' =>
    match strings_of l' with
    | Some ss => Some (s :: ss)
    | None => None
    end
  | _ :: _ => None
  end.

Definition comma_join (v : json) : Exn + string :=
  match v with
  | JArr l =>
    match strings_of l with
    | Some ss => inr (String.concat "," ss)
    | None => inl TypeError
    end
  | _ => inl TypeError
  end.

(** [v.get(s)]: only a dict has the method; a missing key gives [None]. *)
Definition py_get (v : json) (s : string) : Exn + json :=
  match v with
  | JObj d =>
    match dict_lookup s d with
    | Some x => inr x
    | None => inr JNull
    end
  | _ => inl AttributeError
  end.

(** Truth value of a JSON value, as [not v] tests it. *)
Definition truthy (v : json) : bool :=
  match v with
  | JNull => false
  | JBool b => b
  | JNum n => negb (Z.eqb n 0)
  | JStr s => negb (String.eqb s "")
  | JArr l => match l with [] => false | _ => true end
  | JObj d => match d with [] => false | _ => true end
  end.

(** [f"{n}"] for an [int]. *)
Definition str_of_int (n : Z) : string := NilZero.string_of_int (Z.to_int n).

(** ** The driver *)

(** [LWM2M_OBJECTS], in the order the dict literal lists its entries. *)
Definition LWM2M_OBJECTS : list (string * string) :=
  [ ("device_identity", "/3/0");
    ("power", "/3/0/7");
    ("memory_free", "/3/0/10");
    ("memory_total", "/3/0/9");
    ("network", "/4/0");
    ("firmware_state", "/5/0/3");
    ("firmware_result", "/5/0/5");
    ("location", "/6/0") ].

Definition LWM2M_REG_PATH : string := "/rd".

Record LwM2MClient : Type := mkClient {
  server_ip : string;
  server_port : Z;
  epname : string;
  coap_port : Z
}.

(** [f"coap://{self.server_ip}:{self.server_port}{path}"] *)
Definition coap_uri (self : LwM2MClient) (path : string) : string :=
  ("coap://" ++ server_ip self ++ ":" ++ str_of_int (server_port self)
   ++ path)%string.

Definition _get_context (self : LwM2MClient) : M Ctx :=
  create_client_context "0.0.0.0" (coap_port self).

Definition register (self : LwM2MClient) (params : json) : M Response :=
  ctx <- _get_context self ;;
  let payload : Bytes := [] in
  let query := [("ep=" ++ epname self)%string; "lt=86400"; "b=U"] in
  has_objects <- lift (py_in "objects" params) ;;
  objects_is_list <-
    (if has_objects : bool
     then (objects <- lift (py_getitem params "objects") ;;
           ret (is_list objects))
     else ret false) ;;
  query <-
    (if objects_is_list : bool
     then (objects <- lift (py_getitem params "objects") ;;
           objstr <- lift (comma_join objects) ;;
           ret (query ++ [("lwm2m=" ++ objstr)%string]))
     else ret query) ;;
  let uri := coap_uri self LWM2M_REG_PATH in
  let req := mkMessage POST uri (Some query) (Some payload) in
  resp <- request ctx req ;;
  ret resp.

Definition execute_command (self : LwM2MClient) (command : json)
  : M Response :=
  ctx <- _get_context self ;;
  path <-
    (if eq_str command "reboot" then ret "/3/0/4"
     else if eq_str command "factory_reset" then ret "/3/0/5"
     else if eq_str command "firmware_update" then ret "/5/0/2"
     else raise (Exception "Unknown command")) ;;
  let uri := coap_uri self path in
  let req := mkMessage POST uri None None in
  resp <- request ctx req ;;
  ret resp.

(** The closure [safe_get] of [get_device_info], with the variables it
    captures as its first arguments. *)
Definition safe_get (self : LwM2MClient) (ctx : Ctx) (path : string)
  : M (option Text) :=
  try_except
    (let uri := coap_uri self path in
     let req := mkMessage GET uri None None in
     resp <- request ctx req ;;
     ret (Some (decode_ignore (resp_payload resp))))
    (fun _ => ret None).

(** The snapshot is the dict literal of the [return]: keys in order,
    [None] for the Python value [None]. *)
Definition DeviceInfo := list (string * option Text).

Definition get_device_info (self : LwM2MClient) : M DeviceInfo :=
  ctx <- _get_context self ;;
  devobj <- dict_getitem LWM2M_OBJECTS "device_identity" ;;
  mem_obj <- dict_getitem LWM2M_OBJECTS "memory_free" ;;
  mem_total_obj <- dict_getitem LWM2M_OBJECTS "memory_total" ;;
  net_obj <- dict_getitem LWM2M_OBJECTS "network" ;;
  fw_state_obj <- dict_getitem LWM2M_OBJECTS "firmware_state" ;;
  fw_result_obj <- dict_getitem LWM2M_OBJECTS "firmware_result" ;;
  location_obj <- dict_getitem LWM2M_OBJECTS "location" ;;
  identity <- safe_get self ctx devobj ;;
  memory_free <- safe_get self ctx mem_obj ;;
  memory_total <- safe_get self ctx mem_total_obj ;;
  network <- safe_get self ctx net_obj ;;
  fw_state <- safe_get self ctx fw_state_obj ;;
  fw_result <- safe_get self ctx fw_result_obj ;;
  location <- safe_get self ctx location_obj ;;
  ret [ ("identity", identity);
        ("memory_free", memory_free);
        ("memory_total", memory_total);
        ("network", network);
        ("firmware_state", fw_state);
        ("firmware_update_result", fw_result);
        ("location", location) ].

(** ** The HTTP handlers *)

(** The text of an error body: a literal of the driver, or [str(e)]. *)
Inductive Reason : Type :=
| Said (text : string)
| Str (e : Exn).

(** The dict given to [web.json_response], one constructor per shape. *)
Inductive Body : Type :=
| Registered (code_name : string) (location : list string + string)
    (payload_text : Text)
| Executed (code_name : string) (payload_text : Text)
| Info (info : DeviceInfo)
| Error (reason : Reason).

Record HttpResponse : Type := mkHttp {
  status : Z;
  body : Body
}.

(** [web.json_response(data, status=200)] *)
Definition json_response (data : Body) (st : Z) : HttpResponse :=
  mkHttp st data.

(** A request of the listener is what [await request.json()] does with
    its body: it raises, or it returns the parsed document. *)
Record Request : Type := mkRequest {
  json_of : Exn + json
}.

Definition reg_handler (lwm2m_client : LwM2MClient) (req : Request)
  : M HttpResponse :=
  data <- try_except (lift (json_of req)) (fun _ => ret (JObj [])) ;;
  try_except
    (resp <- register lwm2m_client data ;;
     ret (json_response
            (Registered (resp_code_name resp)
               (match resp_location_path resp with
                | Some p => inl p
                | None => inr ""
                end)
               (decode_ignore (resp_payload resp)))
            200))
    (fun e => ret (json_response (Error (Str e)) 500)).

Definition cmd_handler (lwm2m_client : LwM2MClient) (req : Request)
  : M HttpResponse :=
  try_except
    (data <- lift (json_of req) ;;
     command <- lift (py_get data "command") ;;
     if negb (truthy command)
     then ret (json_response (Error (Said "Missing command parameter")) 400)
     else
       resp <- execute_command lwm2m_client command ;;
       ret (json_response
              (Executed (resp_code_name resp)
                 (decode_ignore (resp_payload resp)))
              200))
    (fun e => ret (json_response (Error (Str e)) 500)).

Definition info_handler (lwm2m_client : LwM2MClient) (req : Request)
  : M HttpResponse :=
  try_except
    (info <- get_device_info lwm2m_client ;;
     ret (json_response (Info info) 200))
    (fun e => ret (json_response (Error (Str e)) 500)).

(** ** Reading a run *)

(** The exchanges among some events, in order. *)
Definition exchanges (evs : list Event) : list Message :=
  flat_map (fun ev => match ev with
                      | EvRequest _ m _ => [m]
                      | EvContext _ _ _ => []
                      end) evs.

(** How the exchanges among some events ended, in order. *)
Definition outcomes (evs : list Event) : list (Exn + Response) :=
  flat_map (fun ev => match ev with
                      | EvRequest _ _ o => [o]
                      | EvContext _ _ _ => []
                      end) evs.

(** The contexts created among some events. *)
Definition created (evs : list Event) : list Ctx :=
  flat_map (fun ev => match ev with
                      | EvContext _ _ (inr c) => [c]
                      | _ => []
                      end) evs.

(** The contexts on which the exchanges among some events went out. *)
Definition used (evs : list Event) : list Ctx :=
  flat_map (fun ev => match ev with
                      | EvRequest c _ _ => [c]
                      | EvContext _ _ _ => []
                      end) evs.

(** ** Vocabulary of the statements *)

(** What a read leaves in the snapshot, from how its exchange ended. *)
Definition field_of (o : Exn + Response) : option Text :=
  match o with
  | inl _ => None
  | inr resp => Some (decode_ignore (resp_payload resp))
  end.

(** The request of one read. *)
Definition get_message (self : LwM2MClient) (path : string) : Message :=
  mkMessage GET (coap_uri self path) None None.

(** The events of the reads of [paths], one after the other on [ctx],
    each answered from the trace as it stands before it. *)
Fixpoint read_events (self : LwM2MClient) (ctx : Ctx) (env : Env)
  (tr : Trace) (paths : list string) : list Event :=
  match paths with
  | [] => []
  | p :: ps =>
    let ev := EvRequest ctx (get_message self p)
                (request_outcome env tr ctx (get_message self p)) in
    ev :: read_events self ctx env (tr ++ [ev]) ps
  end.

(** The paths [get_device_info] reads and the keys it files them under. *)
Definition info_paths : list string :=
  ["/3/0"; "/3/0/10"; "/3/0/9"; "/4/0"; "/5/0/3"; "/5/0/5"; "/6/0"].

Definition info_keys : list string :=
  ["identity"; "memory_free"; "memory_total"; "network"; "firmware_state";
   "firmware_update_result"; "location"].

(** The three fixed query parameters of a registration. *)
Definition base_query (self : LwM2MClient) : list string :=
  [("ep=" ++ epname self)%string; "lt=86400"; "b=U"].

(** The registration request carrying [query]. *)
Definition register_message (self : LwM2MClient) (query : list string)
  : Message :=
  mkMessage POST (coap_uri self LWM2M_REG_PATH) (Some query) (Some []).

(** The events of an operation that creates its context (the next free
    identity) and then performs the single exchange [msg] on it. *)
Definition one_exchange (self : LwM2MClient) (env : Env) (tr : Trace)
  (msg : Message) : list Event * (Exn + Response) :=
  let c := List.length tr in
  let ev0 := EvContext "0.0.0.0" (coap_port self) (inr c) in
  let o := request_outcome env (tr ++ [ev0]) c msg in
  ([ev0; EvRequest c msg o], o).

(** The Command Table of the specification. *)
Definition command_table : list (string * string) :=
  [("reboot", "/3/0/4"); ("factory_reset", "/3/0/5");
   ("firmware_update", "/5/0/2")].

(** The request of a command resolved to [path]. *)
Definition command_message (self : LwM2MClient) (path : string) : Message :=
  mkMessage POST (coap_uri self path) None None.

(** ** Concrete clients and environments *)

(** The client the module builds when no environment variable is set. *)
Definition lwm2m_client : LwM2MClient :=
  mkClient "127.0.0.1" 5683 "raspi5" 56830.

(** 2.05 Content and 4.04 Not Found. *)
Definition content (text : string) : Response :=
  mkResponse 69 "CONTENT" (list_byte_of_string text) None.

Definition not_found (text : string) : Response :=
  mkResponse 132 "NOT_FOUND" (list_byte_of_string text) None.

(** Every context is created and every exchange is answered. *)
Definition env_healthy : Env :=
  mkEnv (fun _ _ _ => None) (fun _ _ _ => inr (content "ok")).

(** The local port cannot be bound. *)
Definition env_no_context : Env :=
  mkEnv (fun _ _ _ => Some (LibraryError "bind failed"))
        (fun _ _ _ => inl (LibraryError "no context")).

(** Contexts are created, but no exchange is ever answered. *)
Definition env_silent : Env :=
  mkEnv (fun _ _ _ => None) (fun _ _ _ => inl (LibraryError "timeout")).

(** The server answers every read but the one of [/4/0], for which the
    exchange raises. *)
Definition env_network_down : Env :=
  mkEnv (fun _ _ _ => None)
        (fun _ _ msg =>
           if String.eqb (uri msg) "coap://127.0.0.1:5683/4/0"
           then inl (LibraryError "timeout")
           else inr (content "ok")).

(** The server answers every read, the one of [/4/0] with 4.04. *)
Definition env_network_not_found : Env :=
  mkEnv (fun _ _ _ => None)
        (fun _ _ msg =>
           if String.eqb (uri msg) "coap://127.0.0.1:5683/4/0"
           then inr (not_found "Not Found")
           else inr (content "ok")).

(** A read that failed in the sense of section 4.4 of the specification:
    a transport error, or a response whose status is not a success
    (CoAP class 2). *)
Definition read_failed (o : Exn + Response) : bool :=
  match o with
  | inl _ => true
  | inr resp => negb (N.eqb (N.div (resp_code resp) 32) 2)
  end.

(** ** Sessions *)

(** A call of one of the three operations of the client. *)
Inductive Call : Type :=
| CallRegister (params : json)
| CallExecute (command : json)
| CallInfo.

(** The events one call adds to the trace. *)
Definition call_events (self : LwM2MClient) (call : Call) (env : Env)
  (tr : Trace) : list Event :=
  match call with
  | CallRegister params => fst (register self params env tr)
  | CallExecute command => fst (execute_command self command env tr)
  | CallInfo => fst (get_device_info self env tr)
  end.

(** The calls of a session, one after the other: the events of each. *)
Fixpoint session (self : LwM2MClient) (calls : list Call) (env : Env)
  (tr : Trace) : list (list Event) :=
  match calls with
  | [] => []
  | call :: calls' =>
    let evs := call_events self call env tr in
    evs :: session self calls' env (tr ++ evs)
  end.

(** The events of a call that begins by creating one context, bound to
    the configured local port, creates no other, and issues all its
    exchanges on that one (none when it could not be created). *)
Definition own_context (self : LwM2MClient) (evs : list Event) : Prop :=
  exists o rest,
    evs = EvContext "0.0.0.0" (coap_port self) o :: rest /\
    created rest = [] /\
    match o with
    | inl _ => rest = []
    | inr c => created evs = [c] /\ Forall (eq c) (used rest)
    end.

(** The same, with the identity the context gets after the trace [tr]. *)
Definition own_context_at (self : LwM2MClient) (tr : Trace)
  (evs : list Event) : Prop :=
  exists o rest,
    evs = EvContext "0.0.0.0" (coap_port self) o :: rest /\
    created rest = [] /\
    match o with
    | inl _ => rest = []
    | inr c => c = List.length tr /\ Forall (eq c) (used rest)
    end.

(** The events behind the creation of context [c]: no creation, and
    exchanges on [c] only. *)
Definition on_context (c : Ctx) (evs : list Event) : Prop :=
  created evs = [] /\ Forall (eq c) (used evs).

(** [subseq l1 l2]: [l1] is [l2] with some of its elements left out. *)
Inductive subseq {A : Type} : list A -> list A -> Prop :=
| subseq_nil : subseq [] []
| subseq_skip x l1 l2 : subseq l1 l2 -> subseq l1 (x :: l2)
| subseq_keep x l1 l2 : subseq l1 l2 -> subseq (x :: l1) (x :: l2).

(** ** Vocabulary of the handlers *)

(** The options [reg_handler] registers with: the parsed body, or the
    empty dict when the body does not parse. *)
Definition body_or_empty (req : Request) : json :=
  match json_of req with
  | inr data => data
  | inl _ => JObj []
  end.

(** The answers of the handlers: to a response of a registration, to a
    response of a command, and to an exception. *)
Definition registered (resp : Response) : HttpResponse :=
  mkHttp 200
    (Registered (resp_code_name resp)
       (match resp_location_path resp with
        | Some p => inl p
        | None => inr ""
        end)
       (decode_ignore (resp_payload resp))).

Definition executed (resp : Response) : HttpResponse :=
  mkHttp 200
    (Executed (resp_code_name resp) (decode_ignore (resp_payload resp))).

Definition failed (e : Exn) : HttpResponse := mkHttp 500 (Error (Str e)).

(** 4.00 Bad Request. *)
Definition bad_request (text : string) : Response :=
  mkResponse 128 "BAD_REQUEST" (list_byte_of_string text) None.

(** Contexts are created, and the server rejects every request. *)
Definition env_rejecting : Env :=
  mkEnv (fun _ _ _ => None) (fun _ _ _ => inr (bad_request "no")).

(** The server answers every request with the payload [O FF K]: the byte
    FF starts no well-formed sequence. *)
Definition env_garbled : Env :=
  mkEnv (fun _ _ _ => None)
        (fun _ _ _ => inr (mkResponse 69 "CONTENT" [x4f; xff; x4b] None)).

(** The events of a call made after the trace [tr]: one attempt to
    create a context for the configured local port; when it succeeds,
    the new context, no other creation, and exchanges on that context
    only; when it fails, nothing else. *)
Definition own_context_exactly (self : LwM2MClient) (env : Env) (tr : Trace)
  (evs : list Event) : Prop :=
  match create_outcome env tr "0.0.0.0" (coap_port self) with
  | None =>
    exists rest,
      evs = EvContext "0.0.0.0" (coap_port self) (inr (List.length tr))
            :: rest /\
      created rest = [] /\
      Forall (eq (List.length tr)) (used rest)
  | Some e => evs = [EvContext "0.0.0.0" (coap_port self) (inl e)]
  end.

(** ** Running the monad *)

Lemma bind_unfold {A B} (m : M A) (f : A -> M B) env tr :
  bind m f env tr =
  match m env tr with
  | (evs, inl e) => (evs, inl e)
  | (evs, inr a) =>
    match f a env (tr ++ evs) with
    | (evs', r) => (evs ++ evs', r)
    end
  end.
Proof. reflexivity. Qed.

Lemma bind_ok {A B} (m : M A) (f : A -> M B) env tr evs a evs' r :
  m env tr = (evs, inr a) ->
  f a env (tr ++ evs) = (evs', r) ->
  bind m f env tr = (evs ++ evs', r).
Proof. intros H H'. rewrite bind_unfold, H, H'. reflexivity. Qed.

Lemma bind_raise {A B} (m : M A) (f : A -> M B) env tr evs e :
  m env tr = (evs, inl e) -> bind m f env tr = (evs, inl e).
Proof. intros H. rewrite bind_unfold, H. reflexivity. Qed.

Lemma bind_ret {A} (m : M A) env tr :
  bind m (fun x => ret x) env tr = m env tr.
Proof.
  rewrite bind_unfold. destruct (m env tr) as [evs [e | a]]; cbn.
  - reflexivity.
  - rewrite app_nil_r. reflexivity.
Qed.

Lemma bind_ret_l {A B} (a : A) (f : A -> M B) env tr :
  bind (ret a) f env tr = f a env tr.
Proof.
  rewrite bind_unfold. cbn. rewrite app_nil_r.
  destruct (f a env tr); reflexivity.
Qed.

Lemma bind_lift_ok {A B} (a : A) (f : A -> M B) env tr :
  bind (lift (inr a)) f env tr = f a env tr.
Proof. apply (bind_ret_l a f). Qed.

Lemma bind_lift_raise {A B} (e : Exn) (f : A -> M B) env tr :
  bind (lift (inl e)) f env tr = ([], inl e).
Proof. reflexivity. Qed.

Lemma bind_raise_l {A B} (e : Exn) (f : A -> M B) env tr :
  bind (raise e) f env tr = ([], inl e).
Proof. reflexivity. Qed.

Lemma bind_assoc {A B C} (m : M A) (f : A -> M B) (g : B -> M C) env tr :
  bind (bind m f) g env tr = bind m (fun x => bind (f x) g) env tr.
Proof.
  unfold bind. destruct (m env tr) as [evs [e | a]]; [reflexivity | ].
  destruct (f a env (tr ++ evs)) as [evs' [e | b]]; [reflexivity | ].
  rewrite <- app_assoc.
  destruct (g b env (tr ++ evs ++ evs')) as [evs'' r].
  rewrite app_assoc. reflexivity.
Qed.

(** Runs the pure steps at the head of a computation. *)
Ltac run_pure :=
  repeat (cbv beta iota;
          first [ rewrite bind_assoc
                | rewrite bind_ret_l
                | rewrite bind_lift_ok
                | rewrite bind_lift_raise
                | rewrite bind_raise_l
                | rewrite bind_ret ]).

(** ** The calls to the library *)

(** Creating the context, when the environment lets it be created. *)
Lemma get_context_ok self env tr :
  create_outcome env tr "0.0.0.0" (coap_port self) = None ->
  _get_context self env tr =
  ([EvContext "0.0.0.0" (coap_port self) (inr (List.length tr))],
   inr (List.length tr)).
Proof.
  intros H. unfold _get_context, create_client_context. rewrite H. reflexivity.
Qed.

Lemma get_context_fails self env tr e :
  create_outcome env tr "0.0.0.0" (coap_port self) = Some e ->
  _get_context self env tr =
  ([EvContext "0.0.0.0" (coap_port self) (inl e)], inl e).
Proof.
  intros H. unfold _get_context, create_client_context. rewrite H. reflexivity.
Qed.

Lemma request_run ctx req env tr :
  request ctx req env tr =
  ([EvRequest ctx req (request_outcome env tr ctx req)],
   request_outcome env tr ctx req).
Proof. reflexivity. Qed.

(** A read never raises: it adds its one exchange and gives the field. *)
Lemma safe_get_run self ctx path env tr :
  safe_get self ctx path env tr =
  ([EvRequest ctx (get_message self path)
      (request_outcome env tr ctx (get_message self path))],
   inr (field_of (request_outcome env tr ctx (get_message self path)))).
Proof.
  unfold safe_get, try_except, bind, request, get_message.
  destruct (request_outcome env tr ctx _) as [e | resp]; reflexivity.
Qed.

(** One step of a run: the head of a [bind] whose result is known. *)
Ltac run_step :=
  lazymatch goal with
  | |- bind (safe_get _ _ _) _ _ _ = _ =>
    eapply bind_ok; [apply safe_get_run | cbv beta]
  | |- bind (dict_getitem _ _) _ _ _ = _ =>
    eapply bind_ok; [reflexivity | cbv beta]
  | |- bind (ret _) _ _ _ = _ =>
    eapply bind_ok; [reflexivity | cbv beta]
  | |- bind (lift (inr _)) _ _ _ = _ =>
    eapply bind_ok; [reflexivity | cbv beta]
  | |- bind (_get_context _) _ _ _ = _ =>
    eapply bind_ok; [apply get_context_ok; assumption | cbv beta]
  end.

(** An operation whose context exists and whose last step is its single
    exchange. *)
Lemma context_then_request self env tr (k : Ctx -> M Response) msg :
  create_outcome env tr "0.0.0.0" (coap_port self) = None ->
  (forall c tr', k c env tr' = request c msg env tr') ->
  bind (_get_context self) k env tr = one_exchange self env tr msg.
Proof.
  intros H Hk. unfold one_exchange.
  change [?a; ?b] with ([a] ++ [b]).
  eapply bind_ok; [now apply get_context_ok | ].
  rewrite Hk. apply request_run.
Qed.

(** ** Registration *)

Lemma register_empty_run self env tr :
  create_outcome env tr "0.0.0.0" (coap_port self) = None ->
  register self (JObj []) env tr =
  one_exchange self env tr (register_message self (base_query self)).
Proof.
  intros H. unfold register. apply context_then_request; [exact H | ].
  intros c tr'. cbn [py_in dict_lookup]. run_pure. reflexivity.
Qed.

Lemma register_dict_run self env tr d :
  create_outcome env tr "0.0.0.0" (coap_port self) = None ->
  let ev0 := EvContext "0.0.0.0" (coap_port self) (inr (List.length tr)) in
  register self (JObj d) env tr =
  match dict_lookup "objects" d with
  | Some (JArr items) =>
    match strings_of items with
    | Some objs =>
      one_exchange self env tr
        (register_message self
           (base_query self ++ [("lwm2m=" ++ String.concat "," objs)%string]))
    | None => ([ev0], inl TypeError)
    end
  | _ => one_exchange self env tr (register_message self (base_query self))
  end.
Proof.
  intros H ev0.
  assert (Hplain : forall v,
    dict_lookup "objects" d = v ->
    match v with Some (JArr _) => False | _ => True end ->
    register self (JObj d) env tr =
    one_exchange self env tr (register_message self (base_query self))).
  { intros v Hv Hnl. unfold register.
    apply context_then_request; [exact H | ]. intros c tr'.
    cbn [py_in py_getitem]. rewrite Hv.
    destruct v as [[] | ]; try contradiction;
      run_pure; cbn [is_list]; run_pure; reflexivity. }
  destruct (dict_lookup "objects" d) as [v | ] eqn:Hd;
    [ | now apply (Hplain None)].
  destruct v as [ | b | n | s | items | members];
    try (apply (Hplain _ eq_refl); exact I).
  destruct (strings_of items) as [objs | ] eqn:Hs.
  - unfold register. apply context_then_request; [exact H | ]. intros c tr'.
    cbn [py_in py_getitem]. rewrite Hd. run_pure.
    cbn [is_list]. run_pure. cbn [comma_join]. rewrite Hs.
    run_pure. reflexivity.
  - unfold register.
    replace [ev0] with ([ev0] ++ @nil Event) by apply app_nil_r.
    eapply bind_ok; [now apply get_context_ok | ].
    cbn [py_in py_getitem]. rewrite Hd. run_pure.
    cbn [is_list]. run_pure. cbn [comma_join]. rewrite Hs.
    run_pure. reflexivity.
Qed.

(** ** Commands *)

Lemma execute_known_run self env tr name path :
  create_outcome env tr "0.0.0.0" (coap_port self) = None ->
  dict_lookup name command_table = Some path ->
  execute_command self (JStr name) env tr =
  one_exchange self env tr (command_message self path).
Proof.
  intros H Hp. unfold execute_command.
  apply context_then_request; [exact H | ]. intros c tr'.
  unfold command_table in Hp. cbn [dict_lookup] in Hp. cbn [eq_str].
  rewrite (String.eqb_sym name "reboot").
  rewrite (String.eqb_sym name "factory_reset").
  rewrite (String.eqb_sym name "firmware_update").
  destruct (String.eqb "reboot" name);
    [injection Hp as <-; run_pure; reflexivity | ].
  destruct (String.eqb "factory_reset" name);
    [injection Hp as <-; run_pure; reflexivity | ].
  destruct (String.eqb "firmware_update" name);
    [injection Hp as <-; run_pure; reflexivity | discriminate].
Qed.

Lemma execute_unknown_path name :
  dict_lookup name command_table = None ->
  eq_str (JStr name) "reboot" = false /\
  eq_str (JStr name) "factory_reset" = false /\
  eq_str (JStr name) "firmware_update" = false.
Proof.
  unfold command_table. cbn [dict_lookup eq_str].
  rewrite (String.eqb_sym name "reboot").
  rewrite (String.eqb_sym name "factory_reset").
  rewrite (String.eqb_sym name "firmware_update").
  destruct (String.eqb "reboot" name); [discriminate | ].
  destruct (String.eqb "factory_reset" name); [discriminate | ].
  destruct (String.eqb "firmware_update" name); [discriminate | ].
  auto.
Qed.

Lemma execute_unknown_run self env tr command :
  eq_str command "reboot" = false ->
  eq_str command "factory_reset" = false ->
  eq_str command "firmware_update" = false ->
  execute_command self command env tr =
  match create_outcome env tr "0.0.0.0" (coap_port self) with
  | None =>
    ([EvContext "0.0.0.0" (coap_port self) (inr (List.length tr))],
     inl (Exception "Unknown command"))
  | Some e => ([EvContext "0.0.0.0" (coap_port self) (inl e)], inl e)
  end.
Proof.
  intros H1 H2 H3. unfold execute_command.
  destruct (create_outcome env tr "0.0.0.0" (coap_port self)) as [e | ] eqn:H.
  - apply bind_raise. now apply get_context_fails.
  - replace [EvContext "0.0.0.0" (coap_port self) (inr (List.length tr))]
      with ([EvContext "0.0.0.0" (coap_port self) (inr (List.length tr))]
            ++ @nil Event) by apply app_nil_r.
    eapply bind_ok; [now apply get_context_ok | ].
    rewrite H1, H2, H3. run_pure. reflexivity.
Qed.

(** ** The device information snapshot *)

Lemma get_device_info_run self env tr :
  create_outcome env tr "0.0.0.0" (coap_port self) = None ->
  let c := List.length tr in
  let ev0 := EvContext "0.0.0.0" (coap_port self) (inr c) in
  let evs := read_events self c env (tr ++ [ev0]) info_paths in
  get_device_info self env tr =
  (ev0 :: evs, inr (combine info_keys (map field_of (outcomes evs)))).
Proof.
  intros H c ev0 evs. unfold get_device_info.
  etransitivity.
  { repeat run_step. reflexivity. }
  subst evs. unfold info_paths. cbn [read_events app].
  rewrite ?app_nil_r.
  reflexivity.
Qed.

Lemma read_events_shape self c env paths : forall tr,
  exchanges (read_events self c env tr paths) = map (get_message self) paths /\
  used (read_events self c env tr paths) = repeat c (List.length paths) /\
  created (read_events self c env tr paths) = [] /\
  List.length (outcomes (read_events self c env tr paths)) = List.length paths.
Proof.
  unfold exchanges, used, created, outcomes.
  induction paths as [ | p ps IH]; intros tr;
    cbn [read_events flat_map app List.length map repeat].
  - auto.
  - destruct (IH (tr ++ [EvRequest c (get_message self p)
                           (request_outcome env tr c (get_message self p))]))
      as (He & Hu & Hc & Hl).
    rewrite He, Hu, Hc, Hl. auto.
Qed.

Lemma get_device_info_fails self env tr e :
  create_outcome env tr "0.0.0.0" (coap_port self) = Some e ->
  get_device_info self env tr =
  ([EvContext "0.0.0.0" (coap_port self) (inl e)], inl e).
Proof.
  intros H. unfold get_device_info. apply bind_raise.
  now apply get_context_fails.
Qed.

Lemma get_device_info_shape self env tr :
  create_outcome env tr "0.0.0.0" (coap_port self) = None ->
  exists reads os,
    get_device_info self env tr =
    (EvContext "0.0.0.0" (coap_port self) (inr (List.length tr)) :: reads,
     inr (combine info_keys (map field_of os))) /\
    outcomes reads = os /\
    List.length os = 7 /\
    exchanges reads = map (get_message self) info_paths /\
    used reads = repeat (List.length tr) 7 /\
    created reads = [].
Proof.
  intros H. pose proof (get_device_info_run self env tr H) as Hrun.
  cbv zeta in Hrun.
  set (tr0 := tr ++ _) in Hrun.
  destruct (read_events_shape self (List.length tr) env info_paths tr0)
    as (He & Hu & Hc & Hl).
  exists (read_events self (List.length tr) env tr0 info_paths).
  exists (outcomes (read_events self (List.length tr) env tr0 info_paths)).
  repeat split; assumption.
Qed.

(** Splits a list of known length into its elements. *)
Ltac explode os H :=
  repeat (let o := fresh "o" in
          destruct os as [ | o os]; [discriminate H | ]);
  destruct os; [clear H | discriminate H].

(** Every field of the snapshot is decided by its own read alone. *)
Lemma snapshot_lookup self env tr evs info :
  get_device_info self env tr = (evs, inr info) ->
  map fst info = info_keys /\
  exchanges evs = map (get_message self) info_paths /\
  forall j key,
    nth_error info_keys j = Some key ->
    exists o,
      nth_error (outcomes evs) j = Some o /\
      dict_lookup key info = Some (field_of o).
Proof.
  intros Hrun.
  destruct (create_outcome env tr "0.0.0.0" (coap_port self)) as [e | ] eqn:H.
  - rewrite (get_device_info_fails _ _ _ _ H) in Hrun. discriminate.
  - destruct (get_device_info_shape self env tr H)
      as (reads & os & Heq & Ho & Hl & He & _).
    rewrite Heq in Hrun. injection Hrun as <- <-.
    cbn [outcomes exchanges flat_map app]. fold (outcomes reads).
    fold (exchanges reads). rewrite Ho, He.
    explode os Hl.
    split; [reflexivity | split; [reflexivity | ]].
    intros j key Hj.
    do 7 (destruct j as [ | j];
          [injection Hj as <-; eexists; split; reflexivity | ]).
    destruct j; discriminate.
Qed.

(** ** The handlers *)

Lemma info_handler_run self req env tr :
  info_handler self req env tr =
  match get_device_info self env tr with
  | (evs, inl e) => (evs, inr (json_response (Error (Str e)) 500))
  | (evs, inr info) => (evs, inr (json_response (Info info) 200))
  end.
Proof.
  unfold info_handler, try_except, bind.
  destruct (get_device_info self env tr) as [evs [e | info]]; cbn;
    rewrite app_nil_r; reflexivity.
Qed.

Lemma cmd_handler_falsy self env tr data command :
  py_get data "command" = inr command ->
  truthy command = false ->
  cmd_handler self (mkRequest (inr data)) env tr =
  ([], inr (json_response (Error (Said "Missing command parameter")) 400)).
Proof.
  intros Hget Hfalse. unfold cmd_handler, try_except.
  cbn [json_of]. run_pure. rewrite Hget. run_pure. rewrite Hfalse.
  reflexivity.
Qed.

Lemma cmd_handler_no_get self env tr data e :
  py_get data "command" = inl e ->
  cmd_handler self (mkRequest (inr data)) env tr =
  ([], inr (json_response (Error (Str e)) 500)).
Proof.
  intros Hget. unfold cmd_handler, try_except.
  cbn [json_of]. run_pure. rewrite Hget. run_pure. reflexivity.
Qed.

Lemma cmd_handler_no_json self env tr e :
  cmd_handler self (mkRequest (inl e)) env tr =
  ([], inr (json_response (Error (Str e)) 500)).
Proof. reflexivity. Qed.

(** A [try] whose handler returns a response always returns one. *)
Lemma try_except_answers {A} (m : M A) (h : Exn -> A) env tr :
  exists a, snd (try_except m (fun e => ret (h e)) env tr) = inr a.
Proof.
  unfold try_except, ret.
  destruct (m env tr) as [evs [e | a]]; eexists; reflexivity.
Qed.

Lemma bind_answers {A B} (m : M A) (k : A -> M B) env tr :
  (exists a, snd (m env tr) = inr a) ->
  (forall a tr', exists b, snd (k a env tr') = inr b) ->
  exists b, snd (bind m k env tr) = inr b.
Proof.
  intros [a Ha] Hk. rewrite bind_unfold.
  destruct (m env tr) as [evs r]. cbn [snd] in Ha. subst r.
  destruct (Hk a (tr ++ evs)) as [b Hb].
  destruct (k a env (tr ++ evs)) as [evs' r]. cbn [snd] in Hb. subst r.
  exists b. reflexivity.
Qed.

(** No handler lets an exception through to the listener. *)
Lemma handlers_always_answer self req env tr :
  (exists http, snd (reg_handler self req env tr) = inr http) /\
  (exists http, snd (cmd_handler self req env tr) = inr http) /\
  (exists http, snd (info_handler self req env tr) = inr http).
Proof.
  split; [ | split]; [ | apply try_except_answers ..].
  unfold reg_handler. apply bind_answers.
  - apply (try_except_answers _ (fun _ => JObj [])).
  - intros data tr'. apply try_except_answers.
Qed.

(** A registration request without a usable body is a registration with
    empty options. *)
Lemma reg_handler_without_body self env tr e :
  reg_handler self (mkRequest (inl e)) env tr =
  reg_handler self (mkRequest (inr (JObj []))) env tr.
Proof.
  unfold reg_handler. cbn [json_of]. rewrite !bind_unfold. reflexivity.
Qed.

(** ** Sessions *)

Lemma on_context_nil c : on_context c [].
Proof. split; [reflexivity | constructor]. Qed.

Lemma on_context_request c msg env tr :
  on_context c (fst (request c msg env tr)).
Proof. split; [reflexivity | repeat constructor]. Qed.

Lemma context_then_on_context {A} self env tr (k : Ctx -> M A) :
  (forall c tr', on_context c (fst (k c env tr'))) ->
  own_context_at self tr (fst (bind (_get_context self) k env tr)).
Proof.
  intros Hk.
  destruct (create_outcome env tr "0.0.0.0" (coap_port self)) as [e | ] eqn:H.
  - rewrite (bind_raise _ _ _ _ _ _ (get_context_fails self env tr e H)).
    exists (inl e), []. repeat split.
  - pose proof (get_context_ok self env tr H) as Hc.
    rewrite bind_unfold, Hc.
    specialize (Hk (List.length tr)
                   (tr ++ [EvContext "0.0.0.0" (coap_port self)
                             (inr (List.length tr))])).
    destruct (k _ env _) as [evs r]. destruct Hk as [Hcr Hus].
    exists (inr (List.length tr)), evs. repeat split; assumption.
Qed.

(** Settles [on_context] for a computation that ends in one exchange or
    in an exception, by cases on the values it tests. *)
Ltac settle_on_context :=
  repeat (run_pure;
          try solve [apply on_context_nil | apply on_context_request];
          match goal with
          | |- context [bind (lift ?r) _ _ _] =>
            destruct r as [? | ?] eqn:?
          | |- context [bind (if ?b then _ else _) _ _ _] =>
            destruct b eqn:?
          end).

Lemma register_own_context self params env tr :
  own_context_at self tr (fst (register self params env tr)).
Proof.
  unfold register. apply context_then_on_context. intros c tr'.
  settle_on_context.
Qed.

Lemma execute_command_own_context self command env tr :
  own_context_at self tr (fst (execute_command self command env tr)).
Proof.
  unfold execute_command. apply context_then_on_context. intros c tr'.
  settle_on_context.
Qed.

Lemma get_device_info_own_context self env tr :
  own_context_at self tr (fst (get_device_info self env tr)).
Proof.
  destruct (create_outcome env tr "0.0.0.0" (coap_port self)) as [e | ] eqn:H.
  - rewrite (get_device_info_fails self env tr e H).
    exists (inl e), []. repeat split.
  - destruct (get_device_info_shape self env tr H)
      as (reads & os & Heq & _ & _ & _ & Hu & Hc).
    rewrite Heq. exists (inr (List.length tr)), reads.
    repeat split; [exact Hc | ].
    rewrite Hu. apply Forall_forall. intros c Hin.
    symmetry. apply (repeat_spec _ _ _ Hin).
Qed.

Lemma call_own_context self call env tr :
  own_context_at self tr (call_events self call env tr).
Proof.
  destruct call; cbn [call_events].
  - apply register_own_context.
  - apply execute_command_own_context.
  - apply get_device_info_own_context.
Qed.

Lemma own_context_at_created self tr evs :
  own_context_at self tr evs ->
  evs <> [] /\
  (created evs = [] \/ created evs = [List.length tr]) /\
  own_context self evs.
Proof.
  intros (o & rest & -> & Hc & Ho). split; [discriminate | ].
  destruct o as [e | c].
  - subst rest. split; [left; reflexivity | ].
    exists (inl e), []. repeat split.
  - destruct Ho as [-> Hu].
    assert (Hcr : created (EvContext "0.0.0.0" (coap_port self)
                             (inr (List.length tr)) :: rest)
                  = [List.length tr]).
    { unfold created in *. cbn [flat_map app]. rewrite Hc. reflexivity. }
    split; [right; exact Hcr | ].
    exists (inr (List.length tr)), rest. repeat split; assumption.
Qed.

Lemma own_context_used self evs c :
  own_context self evs -> In c (used evs) -> In c (created evs).
Proof.
  intros (o & rest & -> & Hc & Ho) Hin.
  change (used (EvContext "0.0.0.0" (coap_port self) o :: rest))
    with (used rest) in Hin.
  destruct o as [e | c'].
  - subst rest. destruct Hin.
  - destruct Ho as [Hcr Hu]. rewrite Hcr.
    rewrite Forall_forall in Hu. left. apply (Hu c Hin).
Qed.

Lemma session_invariant self env calls : forall tr,
  Forall (own_context self) (session self calls env tr) /\
  Forall (fun c => List.length tr <= c)
         (flat_map created (session self calls env tr)) /\
  NoDup (flat_map created (session self calls env tr)).
Proof.
  induction calls as [ | call calls IH]; intros tr; cbn [session flat_map].
  - repeat split; constructor.
  - set (evs := call_events self call env tr).
    destruct (own_context_at_created self tr evs
                (call_own_context self call env tr))
      as (Hne & Hcr & Hown).
    destruct (IH (tr ++ evs)) as (Hall & Hge & Hnd).
    assert (Hlen : List.length tr < List.length (tr ++ evs)).
    { rewrite length_app. destruct evs; [contradiction | cbn; lia]. }
    assert (Hge' : Forall (fun c => List.length tr < c)
                     (flat_map created (session self calls env (tr ++ evs)))).
    { eapply Forall_impl; [ | exact Hge]. cbv beta. intros c Hc. lia. }
    split; [constructor; assumption | ].
    split.
    + apply Forall_app. split.
      * destruct Hcr as [-> | ->]; repeat constructor.
      * eapply Forall_impl; [ | exact Hge']. cbv beta. intros c Hc. lia.
    + apply NoDup_app; [ | exact Hnd | ].
      * destruct Hcr as [-> | ->]; repeat constructor. intros [].
      * intros c Hin Hin'. rewrite Forall_forall in Hge'.
        specialize (Hge' c Hin').
        destruct Hcr as [Hcr | Hcr]; rewrite Hcr in Hin;
          [destruct Hin | destruct Hin as [<- | []]; lia].
Qed.

Lemma nodup_app_disjoint {A} (l1 l2 : list A) a :
  NoDup (l1 ++ l2) -> In a l1 -> In a l2 -> False.
Proof.
  induction l1 as [ | x l1 IH]; cbn; intros Hnd H1 H2; [exact H1 | ].
  apply NoDup_cons_iff in Hnd as [Hx Hnd].
  destruct H1 as [-> | H1].
  - apply Hx, in_or_app. right; exact H2.
  - exact (IH Hnd H1 H2).
Qed.

Lemma nodup_flat_map_index {A B} (f : A -> list B) l :
  NoDup (flat_map f l) ->
  forall i j a b c,
    nth_error l i = Some a -> nth_error l j = Some b ->
    In c (f a) -> In c (f b) -> i = j.
Proof.
  induction l as [ | x l IH]; intros Hnd i j a b c Hi Hj Ha Hb.
  - destruct i; discriminate.
  - cbn [flat_map] in Hnd.
    destruct i as [ | i], j as [ | j]; cbn [nth_error] in Hi, Hj.
    + reflexivity.
    + injection Hi as <-. exfalso.
      apply (nodup_app_disjoint _ _ c Hnd Ha).
      apply in_flat_map. exists b. split; [ | exact Hb].
      apply (nth_error_In _ _ Hj).
    + injection Hj as <-. exfalso.
      apply (nodup_app_disjoint _ _ c Hnd Hb).
      apply in_flat_map. exists a. split; [ | exact Ha].
      apply (nth_error_In _ _ Hi).
    + f_equal.
      apply (IH (NoDup_app_remove_l _ _ Hnd) i j a b c Hi Hj Ha Hb).
Qed.

(** ** Decoding *)

Local Open Scope N_scope.

Lemma decode_with_step sub bs :
  decode_with sub bs =
  match bs with
  | [] => []
  | _ :: r0 =>
    match read_sequence bs with
    | Some (c, rest) => c :: decode_with sub rest
    | None => sub ++ decode_with sub r0
    end
  end.
Proof.
  destruct bs as [ | x0 r0]; [reflexivity | ].
  unfold read_sequence.
  cbn [decode_with].
  cbv zeta.
  repeat match goal with
         | |- context [if ?b then _ else _] => destruct b
         | |- context [match ?l with [] => _ | _ :: _ => _ end] =>
           is_var l; destruct l
         end; reflexivity.
Qed.

Lemma byte_of_to_N x : byte_of_N (Byte.to_N x) = x.
Proof. unfold byte_of_N. rewrite Byte.of_to_N. reflexivity. Qed.

Lemma to_N_byte_of_N n : n <= 255 -> Byte.to_N (byte_of_N n) = n.
Proof.
  intros Hn. unfold byte_of_N.
  destruct (Byte.of_N n) as [b | ] eqn:Hb.
  - apply Byte.to_of_N. exact Hb.
  - apply Byte.of_N_None_iff in Hb. lia.
Qed.

Lemma div_4096 c : c / 4096 = c / 64 / 64.
Proof. rewrite N.Div0.div_div. reflexivity. Qed.

Lemma div_262144 c : c / 262144 = c / 64 / 64 / 64.
Proof. rewrite !N.Div0.div_div. reflexivity. Qed.

Lemma digit c : c = 64 * (c / 64) + c mod 64 /\ c mod 64 < 64.
Proof.
  split; [apply N.div_mod; discriminate | apply N.mod_lt; discriminate].
Qed.

(** Names the base-64 digits of [c] and forgets how they are computed. *)
Ltac digits c :=
  rewrite ?(div_4096 c), ?(div_262144 c);
  let H := fresh "Hd" in
  pose proof (digit c) as H; destruct H;
  let H := fresh "Hd" in
  pose proof (digit (c / 64)) as H; destruct H;
  let H := fresh "Hd" in
  pose proof (digit (c / 64 / 64)) as H; destruct H;
  let q1 := fresh "q" in set (q1 := c / 64) in *;
  let q2 := fresh "q" in set (q2 := q1 / 64) in *;
  let q3 := fresh "q" in set (q3 := q2 / 64) in *;
  let d0 := fresh "d" in set (d0 := c mod 64) in *;
  let d1 := fresh "d" in set (d1 := q1 mod 64) in *;
  let d2 := fresh "d" in set (d2 := q2 mod 64) in *;
  clearbody d0 d1 d2 q3; clearbody q2; clearbody q1.

Lemma is_scalar_iff c :
  is_scalar c = true <-> c < 0xD800 \/ (0xDFFF < c /\ c <= 0x10FFFF).
Proof.
  unfold is_scalar.
  rewrite orb_true_iff, andb_true_iff, !N.ltb_lt, N.leb_le. reflexivity.
Qed.

(** Turns the comparisons of the decoder into facts. *)
Ltac to_facts :=
  unfold second_of_three, second_of_four, is_continuation, in_range in *;
  repeat match goal with
         | H : _ /\ _ |- _ => destruct H
         | H : _ \/ _ |- _ => destruct H
         | H : andb _ _ = true |- _ => apply andb_true_iff in H
         | H : andb _ _ = false |- _ => apply andb_false_iff in H
         | H : orb _ _ = true |- _ => apply orb_true_iff in H
         | H : orb _ _ = false |- _ => apply orb_false_iff in H
         | H : context [N.eqb ?a ?b] |- _ => destruct (N.eqb_spec a b)
         | H : (_ <? _) = true |- _ => apply N.ltb_lt in H
         | H : (_ <? _) = false |- _ => apply N.ltb_ge in H
         | H : (_ <=? _) = true |- _ => apply N.leb_le in H
         | H : (_ <=? _) = false |- _ => apply N.leb_gt in H
         end.

(** Settles the next comparison of the goal by the facts at hand. *)
Ltac settle_test :=
  match goal with
  | |- context [if ?t then _ else _] =>
    let T := fresh "T" in
    destruct t eqn:T; to_facts; try (exfalso; lia)
  end.

(** Replaces the byte [x] by the number it stands for. *)
Ltac as_number x :=
  let B := fresh "B" in
  pose proof (Byte.to_N_bounded x) as B;
  let E := fresh "E" in
  pose proof (eq_sym (byte_of_to_N x)) as E;
  let b := fresh "b" in
  set (b := Byte.to_N x) in *; clearbody b; subst x.

(** Names the code point [e] of the goal. *)
Ltac name_point e :=
  let c := fresh "c" in
  let Hc := fresh "Hc" in
  remember e as c eqn:Hc.

Lemma read_sequence_sound bs c rest :
  read_sequence bs = Some (c, rest) ->
  bs = encode_point c ++ rest /\ is_scalar c = true.
Proof.
  destruct bs as [ | x0 r0]; [discriminate | ].
  unfold read_sequence. intros H. as_number x0. cbv zeta in H.
  rewrite is_scalar_iff.
  destruct (b <? 0x80) eqn:T0.
  { injection H as <- <-. unfold encode_point. rewrite T0.
    to_facts. split; [reflexivity | lia]. }
  destruct (in_range 0xC2 0xDF b) eqn:T1.
  { destruct r0 as [ | x1 r1]; [discriminate | ]. as_number x1.
    destruct (is_continuation b0) eqn:T2; [ | discriminate].
    injection H as <- <-. name_point ((b - 0xC0) * 64 + (b0 - 0x80)).
    unfold encode_point. to_facts. repeat settle_test.
    split; [ | lia]. cbn [app].
    digits c. repeat f_equal; lia. }
  destruct (in_range 0xE0 0xEF b) eqn:T2.
  { destruct r0 as [ | x1 [ | x2 r2]]; try discriminate.
    as_number x1. as_number x2.
    destruct (second_of_three b b0 && is_continuation b1)%bool eqn:T3;
      [ | discriminate].
    injection H as <- <-.
    name_point ((b - 0xE0) * 4096 + (b0 - 0x80) * 64 + (b1 - 0x80)).
    unfold encode_point. to_facts; repeat settle_test;
      (split; [ | lia]); cbn [app];
      digits c; repeat f_equal; lia. }
  destruct (in_range 0xF0 0xF4 b) eqn:T3; [ | discriminate].
  destruct r0 as [ | x1 [ | x2 [ | x3 r3]]]; try discriminate.
  as_number x1. as_number x2. as_number x3.
  destruct (second_of_four b b0 && is_continuation b1
            && is_continuation b2)%bool eqn:T4; [ | discriminate].
  injection H as <- <-.
  name_point ((b - 0xF0) * 262144 + (b0 - 0x80) * 4096
              + (b1 - 0x80) * 64 + (b2 - 0x80)).
  unfold encode_point. to_facts; repeat settle_test;
    (split; [ | lia]); cbn [app];
    digits c; repeat f_equal; lia.
Qed.

Lemma read_sequence_complete c rest :
  is_scalar c = true ->
  read_sequence (encode_point c ++ rest) = Some (c, rest).
Proof.
  rewrite is_scalar_iff. intros Hs. unfold encode_point.
  digits c.
  destruct (c <? 0x80) eqn:T0; [ |
  destruct (c <? 0x800) eqn:T1; [ |
  destruct (c <? 0x10000) eqn:T2]];
    to_facts; cbn [app read_sequence]; cbv zeta;
    rewrite !to_N_byte_of_N by lia;
    repeat settle_test; repeat f_equal; lia.
Qed.

Lemma decode_with_read sub bs c rest :
  read_sequence bs = Some (c, rest) ->
  decode_with sub bs = c :: decode_with sub rest.
Proof.
  intros H. rewrite decode_with_step, H.
  destruct bs; [discriminate H | reflexivity].
Qed.

Lemma decode_with_skip sub x r :
  read_sequence (x :: r) = None ->
  decode_with sub (x :: r) = sub ++ decode_with sub r.
Proof. intros H. rewrite decode_with_step, H. reflexivity. Qed.

Lemma subseq_app_keep {A} (p l1 l2 : list A) :
  subseq l1 l2 -> subseq (p ++ l1) (p ++ l2).
Proof.
  intros H. induction p as [ | x p IH]; [exact H | ].
  cbn [app]. apply subseq_keep, IH.
Qed.

Lemma encode_point_length c : (1 <= List.length (encode_point c))%nat.
Proof.
  unfold encode_point.
  destruct (c <? 0x80); [ | destruct (c <? 0x800);
    [ | destruct (c <? 0x10000)]]; cbn; lia.
Qed.

(** Well-formed text is decoded to itself. *)
Lemma decode_encode sub t :
  Forall (fun c => is_scalar c = true) t ->
  decode_with sub (encode t) = t.
Proof.
  induction 1 as [ | c t Hc _ IH]; [reflexivity | ].
  unfold encode in *. cbn [flat_map].
  rewrite (decode_with_read sub _ c (flat_map encode_point t)).
  - rewrite IH. reflexivity.
  - apply read_sequence_complete, Hc.
Qed.

(** Decoding only leaves bytes out, and yields scalar values only. *)
Lemma decode_ignore_drops n : forall bs,
  (List.length bs <= n)%nat ->
  subseq (encode (decode_ignore bs)) bs /\
  Forall (fun c => is_scalar c = true) (decode_ignore bs).
Proof.
  unfold decode_ignore.
  induction n as [ | n IH]; intros bs Hn.
  - destruct bs; [ | cbn in Hn; lia]. split; constructor.
  - destruct bs as [ | x r]; [split; constructor | ].
    destruct (read_sequence (x :: r)) as [[c rest] | ] eqn:Hr.
    + rewrite (decode_with_read [] _ c rest Hr).
      destruct (read_sequence_sound _ _ _ Hr) as [Hbs Hc].
      assert (Hlen : (List.length rest <= n)%nat).
      { pose proof (encode_point_length c) as H1.
        apply (f_equal (@List.length byte)) in Hbs.
        rewrite length_app in Hbs. cbn [List.length] in Hbs, Hn. lia. }
      destruct (IH rest Hlen) as [Hsub Hall].
      split; [ | constructor; assumption].
      rewrite Hbs. unfold encode. cbn [flat_map].
      apply subseq_app_keep, Hsub.
    + rewrite (decode_with_skip [] x r Hr). cbn [app].
      assert (Hlen : (List.length r <= n)%nat) by (cbn in Hn; lia).
      destruct (IH r Hlen) as [Hsub Hall].
      split; [apply subseq_skip, Hsub | exact Hall].
Qed.

Local Close Scope N_scope.

(** ** Calls and their contexts *)

Lemma register_without_context self params env tr e :
  create_outcome env tr "0.0.0.0" (coap_port self) = Some e ->
  register self params env tr =
  ([EvContext "0.0.0.0" (coap_port self) (inl e)], inl e).
Proof.
  intros H. unfold register. apply bind_raise. now apply get_context_fails.
Qed.

Lemma execute_command_without_context self command env tr e :
  create_outcome env tr "0.0.0.0" (coap_port self) = Some e ->
  execute_command self command env tr =
  ([EvContext "0.0.0.0" (coap_port self) (inl e)], inl e).
Proof.
  intros H. unfold execute_command. apply bind_raise.
  now apply get_context_fails.
Qed.

Lemma context_then_exactly {A} self env tr (k : Ctx -> M A) :
  (forall c tr', on_context c (fst (k c env tr'))) ->
  own_context_exactly self env tr (fst (bind (_get_context self) k env tr)).
Proof.
  intros Hk. unfold own_context_exactly.
  destruct (create_outcome env tr "0.0.0.0" (coap_port self)) as [e | ] eqn:H.
  - rewrite (bind_raise _ _ _ _ _ _ (get_context_fails self env tr e H)).
    reflexivity.
  - pose proof (get_context_ok self env tr H) as Hc.
    rewrite bind_unfold, Hc.
    specialize (Hk (List.length tr)
                   (tr ++ [EvContext "0.0.0.0" (coap_port self)
                             (inr (List.length tr))])).
    destruct (k _ env _) as [evs r]. destruct Hk as [Hcr Hus].
    exists evs. repeat split; assumption.
Qed.

Lemma call_own_context_exactly self call env tr :
  own_context_exactly self env tr (call_events self call env tr).
Proof.
  destruct call; cbn [call_events].
  - unfold register. apply context_then_exactly. intros c tr'.
    settle_on_context.
  - unfold execute_command. apply context_then_exactly. intros c tr'.
    settle_on_context.
  - unfold own_context_exactly.
    destruct (create_outcome env tr "0.0.0.0" (coap_port self))
      as [e | ] eqn:H.
    + rewrite (get_device_info_fails self env tr e H). reflexivity.
    + destruct (get_device_info_shape self env tr H)
        as (reads & os & Heq & _ & _ & _ & Hu & Hc).
      rewrite Heq. exists reads. repeat split; [exact Hc | ].
      rewrite Hu. apply Forall_forall. intros c Hin.
      symmetry. apply (repeat_spec _ _ _ Hin).
Qed.

(** Where every creation succeeds, every call creates one context. *)
Lemma session_all_created self env calls :
  (forall tr, create_outcome env tr "0.0.0.0" (coap_port self) = None) ->
  forall tr,
    Forall (fun evs => exists c, created evs = [c])
           (session self calls env tr) /\
    List.length (flat_map created (session self calls env tr)) =
    List.length calls.
Proof.
  intros Hok. induction calls as [ | call calls IH]; intros tr;
    cbn [session flat_map List.length].
  - split; [constructor | reflexivity].
  - pose proof (call_own_context_exactly self call env tr) as Hown.
    unfold own_context_exactly in Hown. rewrite (Hok tr) in Hown.
    destruct Hown as (rest & Hevs & Hcr & _).
    assert (Hone : created (call_events self call env tr)
                   = [List.length tr]).
    { rewrite Hevs. unfold created in *. cbn [flat_map app].
      rewrite Hcr. reflexivity. }
    destruct (IH (tr ++ call_events self call env tr)) as [Hall Hlen].
    split.
    + constructor; [eexists; exact Hone | exact Hall].
    + rewrite length_app, Hone, Hlen. reflexivity.
Qed.

(** ** The decoder, byte by byte *)

(** A byte at which no well-formed sequence starts is left out, and
    decoding goes on with the next byte. *)
Lemma decode_ignore_skips x r :
  (forall c rest, is_scalar c = true -> x :: r <> encode_point c ++ rest) ->
  decode_ignore (x :: r) = decode_ignore r.
Proof.
  intros Hno. unfold decode_ignore.
  destruct (read_sequence (x :: r)) as [[c rest] | ] eqn:Hr.
  - destruct (read_sequence_sound _ _ _ Hr) as [Hbs Hc].
    contradiction (Hno c rest Hc Hbs).
  - apply (decode_with_skip [] x r Hr).
Qed.

(** A well-formed sequence gives its character, whatever follows. *)
Lemma decode_ignore_reads c bs :
  is_scalar c = true ->
  decode_ignore (encode_point c ++ bs) = c :: decode_ignore bs.
Proof.
  intros Hc. unfold decode_ignore.
  apply decode_with_read, read_sequence_complete, Hc.
Qed.

(** These two rules and the empty payload decide the decoder. *)
Lemma decode_ignore_unique (f : list byte -> Text) :
  f [] = [] ->
  (forall c bs, is_scalar c = true -> f (encode_point c ++ bs) = c :: f bs) ->
  (forall x r,
     (forall c rest, is_scalar c = true -> x :: r <> encode_point c ++ rest) ->
     f (x :: r) = f r) ->
  forall n bs, List.length bs <= n -> f bs = decode_ignore bs.
Proof.
  intros Hnil Hread Hskip.
  induction n as [ | n IH]; intros bs Hn.
  - destruct bs; [exact Hnil | cbn in Hn; lia].
  - destruct bs as [ | x r]; [exact Hnil | ].
    destruct (read_sequence (x :: r)) as [[c rest] | ] eqn:Hr.
    + destruct (read_sequence_sound _ _ _ Hr) as [Hbs Hc].
      rewrite Hbs, (Hread c rest Hc), (decode_ignore_reads c rest Hc).
      f_equal. apply IH.
      pose proof (encode_point_length c) as H1.
      apply (f_equal (@List.length byte)) in Hbs.
      rewrite length_app in Hbs. cbn [List.length] in Hbs, Hn. lia.
    + assert (Hno : forall c rest, is_scalar c = true ->
                      x :: r <> encode_point c ++ rest).
      { intros c rest Hc Heq.
        pose proof (read_sequence_complete c rest Hc) as Hrc.
        rewrite <- Heq, Hr in Hrc. discriminate Hrc. }
      rewrite (Hskip x r Hno), (decode_ignore_skips x r Hno).
      apply IH. cbn [List.length] in Hn. lia.
Qed.

(** * The claims *)

(** C1, as stated, fails: when the messaging context cannot be created,
    [get_device_info] raises, and [info_handler] answers with status 500
    and an error body instead of a snapshot. *)
Lemma get_device_info_can_raise :
  get_device_info lwm2m_client env_no_context [] =
  ([EvContext "0.0.0.0" 56830 (inl (LibraryError "bind failed"))],
   inl (LibraryError "bind failed")) /\
  (forall info,
     snd (get_device_info lwm2m_client env_no_context []) <> inr info) /\
  snd (info_handler lwm2m_client (mkRequest (inr JNull)) env_no_context []) =
  inr (mkHttp 500 (Error (Str (LibraryError "bind failed")))).
Proof. split; [reflexivity | split; [discriminate | reflexivity]]. Qed.

(** C1, amended: whenever the messaging context is created,
    [get_device_info] returns normally, however many of its reads fail,
    with exactly the seven fields identity, memory_free, memory_total,
    network, firmware_state, firmware_update_result and location, each
    holding the decoded payload of its read or the unavailable marker;
    [info_handler] then answers 200 with that snapshot. *)
Theorem get_device_info_returns_snapshot self req env tr :
  create_outcome env tr "0.0.0.0" (coap_port self) = None ->
  exists evs info,
    get_device_info self env tr = (evs, inr info) /\
    map fst info =
      ["identity"; "memory_free"; "memory_total"; "network";
       "firmware_state"; "firmware_update_result"; "location"] /\
    map snd info = map field_of (outcomes evs) /\
    info_handler self req env tr = (evs, inr (mkHttp 200 (Info info))).
Proof.
  intros H.
  destruct (get_device_info_shape self env tr H)
    as (reads & os & Heq & Ho & Hl & _).
  eexists. eexists. split; [exact Heq | ].
  rewrite info_handler_run, Heq.
  cbn [outcomes flat_map app]. fold (outcomes reads). rewrite Ho.
  explode os Hl. repeat split; reflexivity.
Qed.

Lemma get_device_info_returns_snapshot_witness :
  create_outcome env_silent [] "0.0.0.0" (coap_port lwm2m_client) = None /\
  snd (get_device_info lwm2m_client env_silent []) =
    inr [("identity", None); ("memory_free", None); ("memory_total", None);
         ("network", None); ("firmware_state", None);
         ("firmware_update_result", None); ("location", None)] /\
  exists evs info,
    get_device_info lwm2m_client env_silent [] = (evs, inr info) /\
    map fst info =
      ["identity"; "memory_free"; "memory_total"; "network";
       "firmware_state"; "firmware_update_result"; "location"] /\
    map snd info = map field_of (outcomes evs) /\
    info_handler lwm2m_client (mkRequest (inr JNull)) env_silent [] =
    (evs, inr (mkHttp 200 (Info info))).
Proof.
  split; [reflexivity | split; [reflexivity | ]].
  apply (get_device_info_returns_snapshot lwm2m_client _ env_silent []).
  reflexivity.
Defined.

(** C2, as stated, fails: a read answered with a non-success status is
    one of the failures the claim lists, yet its field holds the decoded
    payload of that answer, not the unavailable marker. *)
Lemma non_success_status_is_not_marked :
  let run := get_device_info lwm2m_client env_network_not_found [] in
  map read_failed (outcomes (fst run)) =
    [false; false; false; true; false; false; false] /\
  exists info,
    snd run = inr info /\
    dict_lookup "network" info =
      Some (Some (decode_ignore (list_byte_of_string "Not Found"))) /\
    dict_lookup "network" info <> Some None.
Proof.
  cbv zeta. split; [vm_compute; reflexivity | ].
  eexists. split; [vm_compute; reflexivity | ].
  split; [vm_compute; reflexivity | discriminate].
Qed.

(** C2, amended: if exactly one of the seven reads fails by raising (a
    transport error; a non-success status is no failure, and decoding
    cannot fail), then all seven exchanges are still issued, only that
    read's field holds the unavailable marker, and each of the other six
    holds the decoded payload of its own answer. *)
Theorem one_raising_read_is_isolated self env tr evs info k e :
  get_device_info self env tr = (evs, inr info) ->
  nth_error (outcomes evs) k = Some (inl e) ->
  (forall j, j < 7 -> j <> k ->
     exists resp, nth_error (outcomes evs) j = Some (inr resp)) ->
  exchanges evs = map (get_message self) info_paths /\
  forall j key,
    nth_error info_keys j = Some key ->
    (j = k -> dict_lookup key info = Some None) /\
    (j <> k ->
     exists resp,
       nth_error (outcomes evs) j = Some (inr resp) /\
       dict_lookup key info =
         Some (Some (decode_ignore (resp_payload resp)))).
Proof.
  intros Hrun Hk Hothers.
  destruct (snapshot_lookup self env tr evs info Hrun) as (_ & He & Hlook).
  split; [exact He | ].
  intros j key Hj. destruct (Hlook j key Hj) as (o & Ho & Hf).
  split.
  - intros ->. rewrite Hk in Ho. injection Ho as <-. exact Hf.
  - intros Hne.
    assert (Hlt : j < 7)
      by (apply (proj1 (nth_error_Some info_keys j)); rewrite Hj;
          discriminate).
    destruct (Hothers j Hlt Hne) as (resp & Hresp).
    exists resp. split; [exact Hresp | ].
    rewrite Hresp in Ho. injection Ho as <-. exact Hf.
Qed.

Lemma one_raising_read_is_isolated_witness :
  exists evs info,
    get_device_info lwm2m_client env_network_down [] = (evs, inr info) /\
    nth_error (outcomes evs) 3 = Some (inl (LibraryError "timeout")) /\
    (forall j, j < 7 -> j <> 3 ->
       exists resp, nth_error (outcomes evs) j = Some (inr resp)) /\
    exchanges evs = map (get_message lwm2m_client) info_paths /\
    forall j key,
      nth_error info_keys j = Some key ->
      (j = 3 -> dict_lookup key info = Some None) /\
      (j <> 3 ->
       exists resp,
         nth_error (outcomes evs) j = Some (inr resp) /\
         dict_lookup key info =
           Some (Some (decode_ignore (resp_payload resp)))).
Proof.
  eexists. eexists.
  split; [vm_compute; reflexivity | ].
  assert (Hk : nth_error
                 (outcomes (fst (get_device_info lwm2m_client
                                   env_network_down [])))
                 3 = Some (inl (LibraryError "timeout")))
    by (vm_compute; reflexivity).
  assert (Hothers : forall j, j < 7 -> j <> 3 ->
            exists resp,
              nth_error
                (outcomes (fst (get_device_info lwm2m_client
                                  env_network_down [])))
                j = Some (inr resp)).
  { intros j Hlt Hne.
    do 3 (destruct j as [ | j]; [eexists; vm_compute; reflexivity | ]).
    destruct j as [ | j]; [contradiction Hne; reflexivity | ].
    do 3 (destruct j as [ | j]; [eexists; vm_compute; reflexivity | ]).
    lia. }
  split; [exact Hk | split; [exact Hothers | ]].
  apply (one_raising_read_is_isolated lwm2m_client env_network_down []
           _ _ 3 (LibraryError "timeout"));
    [vm_compute; reflexivity | exact Hk | exact Hothers].
Defined.

(** C3, as stated, fails: the context is created before the command is
    looked up, so when it cannot be created an unknown command fails with
    the error of the context, not with "Unknown command". *)
Lemma unknown_command_is_checked_after_the_context :
  dict_lookup "unknown" command_table = None /\
  execute_command lwm2m_client (JStr "unknown") env_no_context [] =
  ([EvContext "0.0.0.0" 56830 (inl (LibraryError "bind failed"))],
   inl (LibraryError "bind failed")) /\
  snd (execute_command lwm2m_client (JStr "unknown") env_no_context []) <>
  inl (Exception "Unknown command").
Proof. split; [reflexivity | split; [reflexivity | discriminate]]. Qed.

(** C3, amended: for every command name that is not in the Command
    Table, [execute_command] fails and issues no exchange at all.  It
    first creates its messaging context: when that succeeds the failure
    is the error "Unknown command", raised with nothing but the creation
    of the context behind it; when it does not, the failure is the one of
    the context. *)
Theorem unknown_command_issues_no_exchange self env tr name :
  dict_lookup name command_table = None ->
  exchanges (fst (execute_command self (JStr name) env tr)) = [] /\
  execute_command self (JStr name) env tr =
  match create_outcome env tr "0.0.0.0" (coap_port self) with
  | None =>
    ([EvContext "0.0.0.0" (coap_port self) (inr (List.length tr))],
     inl (Exception "Unknown command"))
  | Some e => ([EvContext "0.0.0.0" (coap_port self) (inl e)], inl e)
  end.
Proof.
  intros Hname.
  destruct (execute_unknown_path name Hname) as (H1 & H2 & H3).
  rewrite (execute_unknown_run self env tr (JStr name) H1 H2 H3).
  split; [ | reflexivity].
  destruct (create_outcome env tr "0.0.0.0" (coap_port self)); reflexivity.
Qed.

Lemma unknown_command_issues_no_exchange_witness :
  dict_lookup "unknown" command_table = None /\
  exchanges (fst (execute_command lwm2m_client (JStr "unknown")
                    env_healthy [])) = [] /\
  execute_command lwm2m_client (JStr "unknown") env_healthy [] =
  ([EvContext "0.0.0.0" 56830 (inr 0)], inl (Exception "Unknown command")).
Proof.
  split; [reflexivity | ].
  apply (unknown_command_issues_no_exchange lwm2m_client env_healthy []
           "unknown").
  reflexivity.
Defined.

(** C4, as stated, fails: when the messaging context of the call cannot
    be created, [register({})] raises that failure and issues no
    exchange at all. *)
Lemma register_issues_nothing_without_context :
  register lwm2m_client (JObj []) env_no_context [] =
  ([EvContext "0.0.0.0" 56830 (inl (LibraryError "bind failed"))],
   inl (LibraryError "bind failed")) /\
  exchanges (fst (register lwm2m_client (JObj []) env_no_context [])) = [].
Proof. split; reflexivity. Qed.

(** C4, amended: whenever the messaging context of the call is created,
    a registration without objects, [register({})], issues exactly one
    exchange: a POST to the registration path,
    [coap://<server>:<port>/rd], whose query parameters are exactly
    [ep=<endpoint name>], [lt=86400] and [b=U], in that order, with no
    [lwm2m] parameter and with an empty payload; it returns or raises
    what that exchange gives.  When the context cannot be created it
    issues no exchange and raises the failure of the creation. *)
Theorem register_without_objects self env tr :
  exchanges (fst (register self (JObj []) env tr)) =
    match create_outcome env tr "0.0.0.0" (coap_port self) with
    | None =>
      [ {| code := POST;
           uri := ("coap://" ++ server_ip self ++ ":"
                   ++ str_of_int (server_port self) ++ "/rd")%string;
           uri_query :=
             Some [("ep=" ++ epname self)%string; "lt=86400"; "b=U"];
           payload := Some [] |} ]
    | Some _ => []
    end /\
  match create_outcome env tr "0.0.0.0" (coap_port self) with
  | None =>
    outcomes (fst (register self (JObj []) env tr)) =
    [snd (register self (JObj []) env tr)]
  | Some e => snd (register self (JObj []) env tr) = inl e
  end.
Proof.
  destruct (create_outcome env tr "0.0.0.0" (coap_port self)) as [e | ] eqn:H.
  - rewrite (register_without_context self (JObj []) env tr e H).
    split; reflexivity.
  - rewrite (register_empty_run self env tr H). split; reflexivity.
Qed.

Lemma register_without_objects_witness :
  create_outcome env_healthy [] "0.0.0.0" (coap_port lwm2m_client) = None /\
  exchanges (fst (register lwm2m_client (JObj []) env_healthy [])) =
  [ {| code := POST;
       uri := "coap://127.0.0.1:5683/rd";
       uri_query := Some ["ep=raspi5"; "lt=86400"; "b=U"];
       payload := Some [] |} ].
Proof.
  split; [reflexivity | ].
  apply (proj1 (register_without_objects lwm2m_client env_healthy [])).
Defined.

(** C5, as stated, fails: an object list that is present but empty still
    appends the parameter, as [lwm2m=] with nothing behind the sign. *)
Lemma empty_object_list_appends_lwm2m :
  exchanges (fst (register lwm2m_client (JObj [("objects", JArr [])])
                    env_healthy [])) =
  [ {| code := POST;
       uri := "coap://127.0.0.1:5683/rd";
       uri_query := Some ["ep=raspi5"; "lt=86400"; "b=U"; "lwm2m="];
       payload := Some [] |} ].
Proof. reflexivity. Qed.

(** C5, amended: for every call to [register] (its messaging context
    being created), the [lwm2m] parameter is appended, as a fourth
    parameter [lwm2m=<comma-joined objects>] in the caller's order, if
    and only if the options hold an object list, empty or not: a list of
    strings gives the request with the fourth parameter, and options
    without [objects], or with [objects] that is no list, give the
    request with the three fixed parameters only.  (A list with an item
    that is no string makes [register] raise before any exchange.) *)
Theorem register_lwm2m_parameter self env tr d :
  create_outcome env tr "0.0.0.0" (coap_port self) = None ->
  (forall items objs,
     dict_lookup "objects" d = Some (JArr items) ->
     strings_of items = Some objs ->
     exchanges (fst (register self (JObj d) env tr)) =
     [register_message self
        (base_query self ++ [("lwm2m=" ++ String.concat "," objs)%string])])
  /\
  (forall v,
     dict_lookup "objects" d = v ->
     match v with Some (JArr _) => False | _ => True end ->
     exchanges (fst (register self (JObj d) env tr)) =
     [register_message self (base_query self)])
  /\
  (forall items,
     dict_lookup "objects" d = Some (JArr items) ->
     strings_of items = None ->
     exchanges (fst (register self (JObj d) env tr)) = [] /\
     snd (register self (JObj d) env tr) = inl TypeError).
Proof.
  intros H. pose proof (register_dict_run self env tr d H) as Hrun.
  cbv zeta in Hrun. split; [ | split].
  - intros items objs Hd Hs. rewrite Hrun, Hd, Hs. reflexivity.
  - intros v Hd Hv. rewrite Hrun, Hd.
    destruct v as [[] | ]; try contradiction; reflexivity.
  - intros items Hd Hs. rewrite Hrun, Hd, Hs. split; reflexivity.
Qed.

Lemma register_lwm2m_parameter_witness :
  create_outcome env_healthy [] "0.0.0.0" (coap_port lwm2m_client) = None /\
  exchanges (fst (register lwm2m_client
                    (JObj [("objects", JArr [JStr "3"; JStr "5"])])
                    env_healthy [])) =
  [ {| code := POST;
       uri := "coap://127.0.0.1:5683/rd";
       uri_query := Some ["ep=raspi5"; "lt=86400"; "b=U"; "lwm2m=3,5"];
       payload := Some [] |} ].
Proof.
  split; [reflexivity | ].
  apply (proj1 (register_lwm2m_parameter lwm2m_client env_healthy []
                  [("objects", JArr [JStr "3"; JStr "5"])] eq_refl)
           [JStr "3"; JStr "5"] ["3"; "5"] eq_refl eq_refl).
Defined.

(** C6, as stated, fails: the table has eight entries, and the one of
    [power] is never read; a call issues seven exchanges, none of them
    to [/3/0/7]. *)
Lemma power_is_not_read :
  let reads :=
    exchanges (fst (get_device_info lwm2m_client env_healthy [])) in
  dict_lookup "power" LWM2M_OBJECTS = Some "/3/0/7" /\
  List.length LWM2M_OBJECTS = 8 /\
  List.length reads = 7 /\
  ~ In (get_message lwm2m_client "/3/0/7") reads.
Proof.
  cbv zeta. repeat split.
  vm_compute. intros H.
  repeat (destruct H as [H | H]; [discriminate H | ]).
  exact H.
Qed.

(** C6, amended: [get_device_info] (its messaging context being created)
    issues seven GET exchanges, one for each entry of the Resource Path
    Table other than [power], in the order of the table: device_identity,
    memory_free, memory_total, network, firmware_state, firmware_result
    and location are read on every call, and [power] on none. *)
Theorem get_device_info_reads_all_but_power self env tr :
  create_outcome env tr "0.0.0.0" (coap_port self) = None ->
  exchanges (fst (get_device_info self env tr)) =
  map (fun entry => get_message self (snd entry))
      (filter (fun entry => negb (String.eqb (fst entry) "power"))
              LWM2M_OBJECTS) /\
  List.length (exchanges (fst (get_device_info self env tr))) = 7.
Proof.
  intros H.
  destruct (get_device_info_shape self env tr H)
    as (reads & os & Heq & _ & _ & He & _).
  rewrite Heq. cbn [fst exchanges flat_map app]. fold (exchanges reads).
  rewrite He. split; reflexivity.
Qed.

Lemma get_device_info_reads_all_but_power_witness :
  create_outcome env_silent [] "0.0.0.0" (coap_port lwm2m_client) = None /\
  exchanges (fst (get_device_info lwm2m_client env_silent [])) =
  map (fun entry => get_message lwm2m_client (snd entry))
      (filter (fun entry => negb (String.eqb (fst entry) "power"))
              LWM2M_OBJECTS) /\
  List.length (exchanges (fst (get_device_info lwm2m_client env_silent [])))
  = 7.
Proof.
  split; [reflexivity | ].
  apply (get_device_info_reads_all_but_power lwm2m_client env_silent []).
  reflexivity.
Defined.

(** C7, as stated, fails: an undecodable byte leaves nothing in the
    decoded string, where the claim has a placeholder character; the
    payload of the single byte FF decodes to the empty string. *)
Lemma undecodable_byte_leaves_no_placeholder :
  decode_ignore [xff] = [] /\
  field_of (inr (mkResponse 69 "CONTENT" [xff] None)) = Some [] /\
  ~ (exists p, decode_ignore [xff] = decode_placeholder p [xff]).
Proof.
  split; [reflexivity | split; [reflexivity | ]].
  intros [p Hp]. discriminate Hp.
Qed.

(** C7, amended: decoding never aborts a read and never fails the
    snapshot: for every byte-sequence payload of an answered read, the
    field is a string, never the unavailable marker.  Undecodable bytes
    are left out of that string, no placeholder takes their place: every
    well-formed sequence gives its character, whatever precedes or
    follows it, every byte at which no well-formed sequence starts gives
    nothing, and decoding goes on with the byte after it.  These rules
    fix the decoded string of every payload; in particular it is made of
    Unicode scalar values whose encoding is the payload with some bytes
    left out, and a well-formed payload is decoded to exactly its
    text. *)
Theorem decoding_never_fails_a_read self ctx path env tr resp :
  request_outcome env tr ctx (get_message self path) = inr resp ->
  snd (safe_get self ctx path env tr) =
    inr (Some (decode_ignore (resp_payload resp))) /\
  subseq (encode (decode_ignore (resp_payload resp))) (resp_payload resp) /\
  Forall (fun c => is_scalar c = true) (decode_ignore (resp_payload resp)) /\
  (forall t,
     Forall (fun c => is_scalar c = true) t ->
     resp_payload resp = encode t ->
     decode_ignore (resp_payload resp) = t) /\
  decode_ignore [] = [] /\
  (forall c bs,
     is_scalar c = true ->
     decode_ignore (encode_point c ++ bs) = c :: decode_ignore bs) /\
  (forall x r,
     (forall c rest,
        is_scalar c = true -> x :: r <> encode_point c ++ rest) ->
     decode_ignore (x :: r) = decode_ignore r) /\
  (forall f : list byte -> Text,
     f [] = [] ->
     (forall c bs,
        is_scalar c = true -> f (encode_point c ++ bs) = c :: f bs) ->
     (forall x r,
        (forall c rest,
           is_scalar c = true -> x :: r <> encode_point c ++ rest) ->
        f (x :: r) = f r) ->
     f (resp_payload resp) = decode_ignore (resp_payload resp)).
Proof.
  intros H. rewrite safe_get_run, H. cbn [snd field_of].
  destruct (decode_ignore_drops _ (resp_payload resp) (le_n _))
    as [Hsub Hall].
  split; [reflexivity | ].
  split; [exact Hsub | ].
  split; [exact Hall | ].
  split; [intros t Ht ->; apply decode_encode, Ht | ].
  split; [reflexivity | ].
  split; [apply decode_ignore_reads | ].
  split; [apply decode_ignore_skips | ].
  intros f Hnil Hread Hskip.
  apply (decode_ignore_unique f Hnil Hread Hskip _ _ (le_n _)).
Qed.

Lemma decoding_never_fails_a_read_witness :
  request_outcome env_garbled [] 0 (get_message lwm2m_client "/3/0") =
    inr (mkResponse 69 "CONTENT" [x4f; xff; x4b] None) /\
  snd (safe_get lwm2m_client 0 "/3/0" env_garbled []) =
    inr (Some [0x4F; 0x4B]%N) /\
  decode_ignore [xff; x4b] = decode_ignore [x4b].
Proof.
  pose proof (decoding_never_fails_a_read lwm2m_client 0 "/3/0" env_garbled
                [] (mkResponse 69 "CONTENT" [x4f; xff; x4b] None) eq_refl)
    as (Hget & _ & _ & _ & _ & _ & Hskip & _).
  split; [reflexivity | ].
  split; [exact Hget | ].
  apply Hskip. intros c rest Hc Heq.
  pose proof (read_sequence_complete c rest Hc) as Hr.
  rewrite <- Heq in Hr. discriminate Hr.
Defined.

(** C8, as stated, fails: when the messaging context of the call cannot
    be created, [execute_command] of a valid command raises that failure
    and issues no exchange at all. *)
Lemma command_issues_nothing_without_context :
  execute_command lwm2m_client (JStr "reboot") env_no_context [] =
  ([EvContext "0.0.0.0" 56830 (inl (LibraryError "bind failed"))],
   inl (LibraryError "bind failed")) /\
  exchanges (fst (execute_command lwm2m_client (JStr "reboot")
                    env_no_context [])) = [].
Proof. split; reflexivity. Qed.

(** C8, amended: for every command name of the Command Table, whenever
    the messaging context of the call is created, [execute_command]
    issues exactly one exchange: a POST to
    [coap://<server>:<port><path>] for the path the table maps the name
    to ([/3/0/4] for reboot, [/3/0/5] for factory_reset, [/5/0/2] for
    firmware_update) and to no other, with neither query nor payload,
    and it returns or raises what that exchange gives.  When the context
    cannot be created it issues no exchange and raises the failure of
    the creation. *)
Theorem execute_command_posts_to_mapped_path self env tr name path :
  In (name, path)
     [("reboot", "/3/0/4"); ("factory_reset", "/3/0/5");
      ("firmware_update", "/5/0/2")] ->
  exchanges (fst (execute_command self (JStr name) env tr)) =
    match create_outcome env tr "0.0.0.0" (coap_port self) with
    | None =>
      [ {| code := POST;
           uri := ("coap://" ++ server_ip self ++ ":"
                   ++ str_of_int (server_port self) ++ path)%string;
           uri_query := None; payload := None |} ]
    | Some _ => []
    end /\
  match create_outcome env tr "0.0.0.0" (coap_port self) with
  | None =>
    outcomes (fst (execute_command self (JStr name) env tr)) =
    [snd (execute_command self (JStr name) env tr)]
  | Some e => snd (execute_command self (JStr name) env tr) = inl e
  end.
Proof.
  intros Hin.
  assert (Hp : dict_lookup name command_table = Some path).
  { cbn [In] in Hin.
    destruct Hin as [Hin | [Hin | [Hin | []]]];
      injection Hin as <- <-; reflexivity. }
  destruct (create_outcome env tr "0.0.0.0" (coap_port self)) as [e | ] eqn:H.
  - rewrite (execute_command_without_context self (JStr name) env tr e H).
    split; reflexivity.
  - rewrite (execute_known_run self env tr name path H Hp).
    split; reflexivity.
Qed.

Lemma execute_command_posts_to_mapped_path_witness :
  map (fun name =>
         exchanges (fst (execute_command lwm2m_client (JStr name)
                           env_healthy [])))
      ["reboot"; "factory_reset"; "firmware_update"] =
  [ [ {| code := POST; uri := "coap://127.0.0.1:5683/3/0/4";
         uri_query := None; payload := None |} ];
    [ {| code := POST; uri := "coap://127.0.0.1:5683/3/0/5";
         uri_query := None; payload := None |} ];
    [ {| code := POST; uri := "coap://127.0.0.1:5683/5/0/2";
         uri_query := None; payload := None |} ] ].
Proof.
  cbn [map].
  rewrite (proj1 (execute_command_posts_to_mapped_path lwm2m_client
                    env_healthy [] "reboot" "/3/0/4"
                    (or_introl eq_refl))).
  rewrite (proj1 (execute_command_posts_to_mapped_path lwm2m_client
                    env_healthy [] "factory_reset" "/3/0/5"
                    (or_intror (or_introl eq_refl)))).
  rewrite (proj1 (execute_command_posts_to_mapped_path lwm2m_client
                    env_healthy [] "firmware_update" "/5/0/2"
                    (or_intror (or_intror (or_introl eq_refl))))).
  reflexivity.
Defined.

(** C9, as stated, fails: a body that parses to something other than an
    object has no [command] field, and neither has a body that does not
    parse at all; the handler answers both with status 500 and the text
    of the exception, not with the client error. *)
Lemma command_body_without_fields :
  cmd_handler lwm2m_client (mkRequest (inr (JArr []))) env_healthy [] =
  ([], inr (mkHttp 500 (Error (Str AttributeError)))) /\
  cmd_handler lwm2m_client
    (mkRequest (inl (LibraryError "JSONDecodeError"))) env_healthy [] =
  ([], inr (mkHttp 500 (Error (Str (LibraryError "JSONDecodeError"))))).
Proof. split; reflexivity. Qed.

(** C9, amended: for every inbound command request whose body parses to
    an object without a [command] field, [cmd_handler] answers with
    status 400 and the reason "Missing command parameter" before any
    dispatch: no context is created and no exchange is issued. *)
Theorem missing_command_is_a_client_error self env tr d :
  dict_lookup "command" d = None ->
  cmd_handler self (mkRequest (inr (JObj d))) env tr =
  ([], inr (mkHttp 400 (Error (Said "Missing command parameter")))).
Proof.
  intros Hd. apply (cmd_handler_falsy self env tr (JObj d) JNull).
  - cbn [py_get]. rewrite Hd. reflexivity.
  - reflexivity.
Qed.

Lemma missing_command_is_a_client_error_witness :
  dict_lookup "command" [("cmd", JStr "reboot")] = None /\
  cmd_handler lwm2m_client
    (mkRequest (inr (JObj [("cmd", JStr "reboot")]))) env_healthy [] =
  ([], inr (mkHttp 400 (Error (Said "Missing command parameter")))).
Proof.
  split; [reflexivity | ].
  apply (missing_command_is_a_client_error lwm2m_client env_healthy []).
  reflexivity.
Defined.

(** C10, as stated, fails: a call whose context cannot be created
    creates none; in an environment in which the local port cannot be
    bound, a session of three calls makes three attempts and creates no
    context at all. *)
Lemma no_context_where_none_can_be_created :
  session lwm2m_client
    [CallInfo; CallExecute (JStr "reboot"); CallRegister (JObj [])]
    env_no_context [] =
  [ [EvContext "0.0.0.0" 56830 (inl (LibraryError "bind failed"))];
    [EvContext "0.0.0.0" 56830 (inl (LibraryError "bind failed"))];
    [EvContext "0.0.0.0" 56830 (inl (LibraryError "bind failed"))] ] /\
  flat_map created
    (session lwm2m_client
       [CallInfo; CallExecute (JStr "reboot"); CallRegister (JObj [])]
       env_no_context []) = [].
Proof. split; reflexivity. Qed.

(** C10, amended: every call of [register], [execute_command] or
    [get_device_info] begins with one attempt to create a messaging
    context bound to the single configured local port, and makes no
    other.  When the attempt succeeds, the call has created a context of
    its own and issues all its exchanges on it (the seven reads of one
    [get_device_info] call share it); no context is ever reused across
    calls: a context created or used by one call carries no exchange of
    any other, and no context is created twice.  When the attempt fails,
    the call creates no context and issues no exchange.  In a session in
    which every creation succeeds, every call creates exactly one
    context. *)
Theorem every_call_has_its_own_context self env calls :
  let runs := session self calls env [] in
  (forall call tr,
     own_context_exactly self env tr (call_events self call env tr)) /\
  Forall (own_context self) runs /\
  NoDup (flat_map created runs) /\
  (forall i j evs_i evs_j c,
     nth_error runs i = Some evs_i ->
     nth_error runs j = Some evs_j ->
     In c (used evs_i) -> In c (used evs_j) -> i = j) /\
  (forall i j evs_i evs_j c,
     nth_error runs i = Some evs_i ->
     nth_error runs j = Some evs_j ->
     In c (created evs_i) -> In c (used evs_j) -> i = j) /\
  ((forall tr, create_outcome env tr "0.0.0.0" (coap_port self) = None) ->
   Forall (fun evs => exists c, created evs = [c]) runs /\
   List.length (flat_map created runs) = List.length calls) /\
  (forall tr,
     used (fst (get_device_info self env tr)) =
     match create_outcome env tr "0.0.0.0" (coap_port self) with
     | None => repeat (List.length tr) 7
     | Some _ => []
     end).
Proof.
  cbv zeta.
  destruct (session_invariant self env calls []) as (Hown & _ & Hnd).
  split; [intros call tr; apply call_own_context_exactly | ].
  split; [exact Hown | split; [exact Hnd | ]].
  split; [ | split; [ | split]].
  - intros i j evs_i evs_j c Hi Hj Hci Hcj.
    rewrite Forall_forall in Hown.
    apply (nodup_flat_map_index created _ Hnd i j evs_i evs_j c Hi Hj).
    + apply (own_context_used self); [ | exact Hci].
      apply Hown, (nth_error_In _ _ Hi).
    + apply (own_context_used self); [ | exact Hcj].
      apply Hown, (nth_error_In _ _ Hj).
  - intros i j evs_i evs_j c Hi Hj Hci Hcj.
    rewrite Forall_forall in Hown.
    apply (nodup_flat_map_index created _ Hnd i j evs_i evs_j c Hi Hj).
    + exact Hci.
    + apply (own_context_used self); [ | exact Hcj].
      apply Hown, (nth_error_In _ _ Hj).
  - intros Hok. apply (session_all_created self env calls Hok []).
  - intros tr.
    destruct (create_outcome env tr "0.0.0.0" (coap_port self))
      as [e | ] eqn:H.
    + rewrite (get_device_info_fails self env tr e H). reflexivity.
    + destruct (get_device_info_shape self env tr H)
        as (reads & os & Heq & _ & _ & _ & Hu & _).
      rewrite Heq. exact Hu.
Qed.

Lemma every_call_has_its_own_context_witness :
  (forall tr,
     create_outcome env_healthy tr "0.0.0.0" (coap_port lwm2m_client)
     = None) /\
  map created (session lwm2m_client
                 [CallInfo; CallExecute (JStr "reboot");
                  CallRegister (JObj [])]
                 env_healthy []) =
  [[0]; [8]; [10]] /\
  map used (session lwm2m_client
              [CallInfo; CallExecute (JStr "reboot"); CallRegister (JObj [])]
              env_healthy []) =
  [repeat 0 7; [8]; [10]] /\
  List.length
    (flat_map created
       (session lwm2m_client
          [CallInfo; CallExecute (JStr "reboot"); CallRegister (JObj [])]
          env_healthy [])) = 3.
Proof.
  assert (Hok : forall tr,
            create_outcome env_healthy tr "0.0.0.0" (coap_port lwm2m_client)
            = None) by reflexivity.
  split; [exact Hok | ].
  split; [reflexivity | split; [reflexivity | ]].
  pose proof (every_call_has_its_own_context lwm2m_client env_healthy
                [CallInfo; CallExecute (JStr "reboot");
                 CallRegister (JObj [])])
    as (_ & _ & _ & _ & _ & Hall & _).
  apply (proj2 (Hall Hok)).
Defined.

(** * Further properties of the driver *)

(** ** The handlers, in terms of the operations *)

Lemma reg_handler_run self req env tr :
  reg_handler self req env tr =
  match register self (body_or_empty req) env tr with
  | (evs, inr resp) => (evs, inr (registered resp))
  | (evs, inl e) => (evs, inr (failed e))
  end.
Proof.
  unfold reg_handler, body_or_empty.
  assert (Hdata : try_except (lift (json_of req)) (fun _ => ret (JObj []))
                    env tr =
                  ([], inr match json_of req with
                           | inr data => data
                           | inl _ => JObj []
                           end))
    by (unfold try_except, lift, ret; destruct (json_of req); reflexivity).
  rewrite bind_unfold, Hdata. cbn [app]. rewrite app_nil_r.
  unfold try_except. rewrite bind_unfold.
  destruct (register self _ env tr) as [evs [e | resp]]; cbn;
    rewrite app_nil_r; reflexivity.
Qed.

Lemma cmd_handler_run self req env tr :
  cmd_handler self req env tr =
  match json_of req with
  | inl e => ([], inr (failed e))
  | inr data =>
    match py_get data "command" with
    | inl e => ([], inr (failed e))
    | inr command =>
      if truthy command
      then match execute_command self command env tr with
           | (evs, inr resp) => (evs, inr (executed resp))
           | (evs, inl e) => (evs, inr (failed e))
           end
      else ([], inr (mkHttp 400 (Error (Said "Missing command parameter"))))
    end
  end.
Proof.
  destruct (json_of req) as [e | data] eqn:Hreq.
  - unfold cmd_handler, try_except. rewrite Hreq. reflexivity.
  - destruct (py_get data "command") as [e | command] eqn:Hget.
    + destruct req as [j]. cbn [json_of] in Hreq. subst j.
      apply cmd_handler_no_get, Hget.
    + destruct (truthy command) eqn:Ht.
      * unfold cmd_handler, try_except. rewrite Hreq. run_pure.
        rewrite Hget. run_pure. rewrite Ht. cbn [negb]. cbv iota.
        rewrite bind_unfold.
        destruct (execute_command self command env tr)
          as [evs [e | resp]]; cbn; rewrite app_nil_r; reflexivity.
      * destruct req as [j]. cbn [json_of] in Hreq. subst j.
        apply (cmd_handler_falsy self env tr data command Hget Ht).
Qed.

(** An operation whose context exists and which raises before any
    exchange. *)
Lemma context_then_raise {A} self env tr (k : Ctx -> M A) e :
  create_outcome env tr "0.0.0.0" (coap_port self) = None ->
  (forall c tr', k c env tr' = ([], inl e)) ->
  bind (_get_context self) k env tr =
  ([EvContext "0.0.0.0" (coap_port self) (inr (List.length tr))], inl e).
Proof.
  intros H Hk.
  replace [EvContext "0.0.0.0" (coap_port self) (inr (List.length tr))]
    with ([EvContext "0.0.0.0" (coap_port self) (inr (List.length tr))]
          ++ @nil Event) by apply app_nil_r.
  eapply bind_ok; [now apply get_context_ok | apply Hk].
Qed.

Lemma py_in_raises s v e : py_in s v = inl e -> e = TypeError.
Proof. destruct v; cbn; congruence. Qed.

Lemma register_non_dict_run self params env tr :
  create_outcome env tr "0.0.0.0" (coap_port self) = None ->
  match params with JObj _ => False | _ => True end ->
  register self params env tr =
  match py_in "objects" params with
  | inr false =>
    one_exchange self env tr (register_message self (base_query self))
  | _ =>
    ([EvContext "0.0.0.0" (coap_port self) (inr (List.length tr))],
     inl TypeError)
  end.
Proof.
  intros H Hnd. unfold register.
  destruct (py_in "objects" params) as [e | [ | ]] eqn:Hin.
  - apply py_in_raises in Hin as He. subst e.
    apply context_then_raise; [exact H | ]. intros c tr'.
    run_pure. reflexivity.
  - apply context_then_raise; [exact H | ]. intros c tr'.
    run_pure.
    destruct params; try discriminate Hin; try contradiction;
      cbn [py_getitem]; run_pure; reflexivity.
  - apply context_then_request; [exact H | ]. intros c tr'.
    run_pure. reflexivity.
Qed.

Lemma eq_str_true v s : eq_str v s = true -> v = JStr s.
Proof.
  destruct v; cbn; try discriminate.
  intros H. apply String.eqb_eq in H. congruence.
Qed.

(** ** Registration requests *)

(** X1: [reg_handler] does not look at the status of the response: every
    answered registration, whatever its response code, is reported with
    status 200 and the result "registered", together with the name of
    the response code, the location path (or the empty string) and the
    decoded payload. *)
Theorem reg_handler_reports_every_answer self req env tr evs resp :
  register self (body_or_empty req) env tr = (evs, inr resp) ->
  reg_handler self req env tr =
  (evs,
   inr (mkHttp 200
          (Registered (resp_code_name resp)
             (match resp_location_path resp with
              | Some p => inl p
              | None => inr ""
              end)
             (decode_ignore (resp_payload resp))))).
Proof. intros H. rewrite reg_handler_run, H. reflexivity. Qed.

Lemma reg_handler_reports_every_answer_witness :
  snd (register lwm2m_client (body_or_empty (mkRequest (inr (JObj []))))
         env_rejecting []) = inr (bad_request "no") /\
  snd (reg_handler lwm2m_client (mkRequest (inr (JObj []))) env_rejecting [])
  = inr (mkHttp 200
           (Registered "BAD_REQUEST" (inr "")
              (decode_ignore (list_byte_of_string "no")))).
Proof.
  split; [reflexivity | ].
  rewrite (reg_handler_reports_every_answer lwm2m_client
             (mkRequest (inr (JObj []))) env_rejecting [] _
             (bad_request "no") eq_refl).
  reflexivity.
Defined.

(** X2: a registration request whose body does not parse is handled as
    one with empty options: when the context is created it issues the
    registration with the three fixed query parameters. *)
Theorem reg_handler_tolerates_unparsable_body self env tr e :
  create_outcome env tr "0.0.0.0" (coap_port self) = None ->
  reg_handler self (mkRequest (inl e)) env tr =
    reg_handler self (mkRequest (inr (JObj []))) env tr /\
  exchanges (fst (reg_handler self (mkRequest (inl e)) env tr)) =
    [ {| code := POST;
         uri := coap_uri self "/rd";
         uri_query := Some [("ep=" ++ epname self)%string; "lt=86400"; "b=U"];
         payload := Some [] |} ].
Proof.
  intros H. split.
  - rewrite !reg_handler_run. reflexivity.
  - rewrite reg_handler_run. cbn [body_or_empty json_of].
    rewrite (register_empty_run self env tr H). unfold one_exchange.
    destruct (request_outcome env _ _ _); reflexivity.
Qed.

Lemma reg_handler_tolerates_unparsable_body_witness :
  create_outcome env_healthy [] "0.0.0.0" (coap_port lwm2m_client) = None /\
  exchanges (fst (reg_handler lwm2m_client
                    (mkRequest (inl (LibraryError "JSONDecodeError")))
                    env_healthy [])) =
    [ {| code := POST;
         uri := "coap://127.0.0.1:5683/rd";
         uri_query := Some ["ep=raspi5"; "lt=86400"; "b=U"];
         payload := Some [] |} ].
Proof.
  split; [reflexivity | ].
  apply (reg_handler_tolerates_unparsable_body lwm2m_client env_healthy []
           (LibraryError "JSONDecodeError") eq_refl).
Defined.

(** X3: options that are not an object.  [null], a boolean or a number
    make [register] raise a [TypeError] before any exchange, and so do a
    string or an array in which "objects" occurs; a string or an array
    in which it does not occur registers with the three fixed
    parameters. *)
Theorem register_options_not_an_object self params env tr :
  create_outcome env tr "0.0.0.0" (coap_port self) = None ->
  match params with JObj _ => False | _ => True end ->
  (py_in "objects" params = inr false ->
   register self params env tr =
   one_exchange self env tr (register_message self (base_query self))) /\
  (py_in "objects" params <> inr false ->
   exchanges (fst (register self params env tr)) = [] /\
   snd (register self params env tr) = inl TypeError).
Proof.
  intros H Hnd. rewrite (register_non_dict_run self params env tr H Hnd).
  split.
  - intros ->. reflexivity.
  - intros Hin. destruct (py_in "objects" params) as [e | [ | ]];
      try (split; reflexivity). contradiction Hin; reflexivity.
Qed.

Lemma register_options_not_an_object_witness :
  exchanges (fst (register lwm2m_client (JStr "hello") env_healthy [])) =
    [register_message lwm2m_client (base_query lwm2m_client)] /\
  snd (register lwm2m_client (JNum 5) env_healthy []) = inl TypeError /\
  snd (register lwm2m_client (JArr [JStr "objects"]) env_healthy []) =
    inl TypeError.
Proof.
  split; [ | split].
  - rewrite (proj1 (register_options_not_an_object lwm2m_client
                      (JStr "hello") env_healthy [] eq_refl I) eq_refl).
    reflexivity.
  - apply (proj2 (register_options_not_an_object lwm2m_client
                    (JNum 5) env_healthy [] eq_refl I)).
    discriminate.
  - apply (proj2 (register_options_not_an_object lwm2m_client
                    (JArr [JStr "objects"]) env_healthy [] eq_refl I)).
    discriminate.
Defined.

(** X4: whatever its options and whatever the environment, [register]
    issues at most one exchange, and that exchange is a POST to the
    registration path with an empty payload whose query is the three
    fixed parameters, followed by at most the one [lwm2m] parameter. *)
Theorem register_only_posts_registrations self params env tr :
  List.length (exchanges (fst (register self params env tr))) <= 1 /\
  forall msg,
    In msg (exchanges (fst (register self params env tr))) ->
    code msg = POST /\
    uri msg = coap_uri self "/rd" /\
    payload msg = Some [] /\
    (uri_query msg = Some (base_query self) \/
     exists objstr,
       uri_query msg =
       Some (base_query self ++ [("lwm2m=" ++ objstr)%string])).
Proof.
  assert (Hplain : forall evs,
    exchanges evs = [register_message self (base_query self)] ->
    List.length (exchanges evs) <= 1 /\
    forall msg, In msg (exchanges evs) ->
      code msg = POST /\ uri msg = coap_uri self "/rd" /\
      payload msg = Some [] /\
      (uri_query msg = Some (base_query self) \/
       exists objstr,
         uri_query msg =
         Some (base_query self ++ [("lwm2m=" ++ objstr)%string]))).
  { intros evs ->. split; [cbn; lia | ].
    intros msg [<- | []]. repeat split. left; reflexivity. }
  assert (Hnone : forall evs,
    exchanges evs = [] ->
    List.length (exchanges evs) <= 1 /\
    forall msg, In msg (exchanges evs) ->
      code msg = POST /\ uri msg = coap_uri self "/rd" /\
      payload msg = Some [] /\
      (uri_query msg = Some (base_query self) \/
       exists objstr,
         uri_query msg =
         Some (base_query self ++ [("lwm2m=" ++ objstr)%string]))).
  { intros evs ->. split; [cbn; lia | intros msg []]. }
  destruct (create_outcome env tr "0.0.0.0" (coap_port self)) as [e | ] eqn:H.
  { rewrite (register_without_context self params env tr e H).
    apply Hnone. reflexivity. }
  destruct params as [ | b | n | s | items | d].
  6:{ pose proof (register_dict_run self env tr d H) as Hrun.
      cbv zeta in Hrun. rewrite Hrun.
      destruct (dict_lookup "objects" d) as [[ | | | | items | ] | ];
        try (apply Hplain; reflexivity).
      destruct (strings_of items) as [objs | ];
        [ | apply Hnone; reflexivity].
      split; [cbn; lia | ].
      intros msg [<- | []]. repeat split. right. eexists. reflexivity. }
  all: match goal with
       | |- context [register _ ?p _ _] =>
         rewrite (register_non_dict_run self p env tr H I)
       end;
    match goal with
    | |- context [py_in ?s ?v] => destruct (py_in s v) as [e | [ | ]]
    end;
    first [apply Hplain; reflexivity | apply Hnone; reflexivity].
Qed.

Lemma register_only_posts_registrations_witness :
  In (register_message lwm2m_client
        (base_query lwm2m_client ++ ["lwm2m=3,5"]))
     (exchanges (fst (register lwm2m_client
                        (JObj [("objects", JArr [JStr "3"; JStr "5"])])
                        env_healthy []))) /\
  code (register_message lwm2m_client
          (base_query lwm2m_client ++ ["lwm2m=3,5"])) = POST.
Proof.
  assert (Hin : In (register_message lwm2m_client
                      (base_query lwm2m_client ++ ["lwm2m=3,5"]))
                   (exchanges (fst (register lwm2m_client
                      (JObj [("objects", JArr [JStr "3"; JStr "5"])])
                      env_healthy []))))
    by (left; reflexivity).
  split; [exact Hin | ].
  apply (proj2 (register_only_posts_registrations lwm2m_client
                  (JObj [("objects", JArr [JStr "3"; JStr "5"])])
                  env_healthy []) _ Hin).
Defined.

(** ** Command requests *)

Lemma table_name_truthy name path :
  dict_lookup name command_table = Some path -> truthy (JStr name) = true.
Proof.
  intros H. cbn [truthy]. destruct (String.eqb_spec name ""); [ | reflexivity].
  subst name. discriminate H.
Qed.

(** X5: a command request whose [command] is a name of the Command Table
    issues, once the context is created, the one POST to the mapped
    path; an answer is reported with status 200, the result "executed",
    the name of the response code and the decoded payload, whatever the
    response code is; an exchange that raises is reported with status
    500 and the text of its exception. *)
Theorem cmd_handler_executes self env tr d name path :
  create_outcome env tr "0.0.0.0" (coap_port self) = None ->
  dict_lookup "command" d = Some (JStr name) ->
  dict_lookup name command_table = Some path ->
  exchanges (fst (cmd_handler self (mkRequest (inr (JObj d))) env tr)) =
    [command_message self path] /\
  snd (cmd_handler self (mkRequest (inr (JObj d))) env tr) =
    inr (match snd (one_exchange self env tr (command_message self path)) with
         | inr resp =>
           mkHttp 200
             (Executed (resp_code_name resp)
                (decode_ignore (resp_payload resp)))
         | inl e => mkHttp 500 (Error (Str e))
         end).
Proof.
  intros H Hd Hp. rewrite cmd_handler_run. cbn [json_of py_get].
  rewrite Hd, (table_name_truthy name path Hp).
  rewrite (execute_known_run self env tr name path H Hp).
  unfold one_exchange. cbn [snd].
  destruct (request_outcome env _ _ _); split; reflexivity.
Qed.

Lemma cmd_handler_executes_witness :
  exchanges (fst (cmd_handler lwm2m_client
                    (mkRequest (inr (JObj [("command", JStr "reboot")])))
                    env_rejecting [])) =
    [command_message lwm2m_client "/3/0/4"] /\
  snd (cmd_handler lwm2m_client
         (mkRequest (inr (JObj [("command", JStr "reboot")])))
         env_rejecting []) =
    inr (mkHttp 200
           (Executed "BAD_REQUEST"
              (decode_ignore (list_byte_of_string "no")))).
Proof.
  apply (cmd_handler_executes lwm2m_client env_rejecting []
           [("command", JStr "reboot")] "reboot" "/3/0/4"
           eq_refl eq_refl eq_refl).
Defined.

(** X6: a command request whose [command] is truthy but is none of the
    three command names (another string, or a value that is no string)
    is answered with status 500 and the text "Unknown command", after
    the context was created and without any exchange. *)
Theorem cmd_handler_unknown_command self env tr data command :
  create_outcome env tr "0.0.0.0" (coap_port self) = None ->
  py_get data "command" = inr command ->
  truthy command = true ->
  eq_str command "reboot" = false ->
  eq_str command "factory_reset" = false ->
  eq_str command "firmware_update" = false ->
  cmd_handler self (mkRequest (inr data)) env tr =
  ([EvContext "0.0.0.0" (coap_port self) (inr (List.length tr))],
   inr (mkHttp 500 (Error (Str (Exception "Unknown command"))))).
Proof.
  intros H Hget Ht H1 H2 H3. rewrite cmd_handler_run. cbn [json_of].
  rewrite Hget, Ht, (execute_unknown_run self env tr command H1 H2 H3), H.
  reflexivity.
Qed.

Lemma cmd_handler_unknown_command_witness :
  cmd_handler lwm2m_client (mkRequest (inr (JObj [("command", JNum 7)])))
    env_healthy [] =
  ([EvContext "0.0.0.0" 56830 (inr 0)],
   inr (mkHttp 500 (Error (Str (Exception "Unknown command"))))).
Proof.
  apply (cmd_handler_unknown_command lwm2m_client env_healthy []
           (JObj [("command", JNum 7)]) (JNum 7)
           eq_refl eq_refl eq_refl eq_refl eq_refl eq_refl).
Defined.

(** X7: [cmd_handler] answers with status 400 exactly when the body
    parses to an object whose [command] is missing or falsy ([null],
    [false], zero, the empty string, an empty array or object); it then
    has done nothing else: no context, no exchange. *)
Theorem cmd_handler_client_error self req env tr http :
  snd (cmd_handler self req env tr) = inr http ->
  (status http = 400%Z <->
   exists data command,
     json_of req = inr data /\
     py_get data "command" = inr command /\
     truthy command = false) /\
  (status http = 400%Z -> fst (cmd_handler self req env tr) = []).
Proof.
  rewrite cmd_handler_run.
  destruct (json_of req) as [e | data].
  { cbn [snd fst]. intros [= <-].
    split; [split | ]; [intros Hs; discriminate Hs | | reflexivity].
    intros (data & command & Hreq & _). discriminate Hreq. }
  destruct (py_get data "command") as [e | command] eqn:Hget.
  { cbn [snd fst]. intros [= <-].
    split; [split | ]; [intros Hs; discriminate Hs | | reflexivity].
    intros (data' & command & [= <-] & Hget' & _).
    rewrite Hget in Hget'. discriminate Hget'. }
  destruct (truthy command) eqn:Ht.
  - destruct (execute_command self command env tr) as [evs [e | resp]];
      cbn [snd fst]; intros [= <-];
      (split; [split | ]; [intros Hs; discriminate Hs | |
                           intros Hs; discriminate Hs]);
      intros (data' & command' & [= <-] & Hget' & Hf);
      rewrite Hget in Hget'; injection Hget' as <-; congruence.
  - cbn [snd fst]. intros [= <-]. split; [split | ]; try reflexivity.
    intros _. exists data, command. auto.
Qed.

Lemma cmd_handler_client_error_witness :
  snd (cmd_handler lwm2m_client (mkRequest (inr (JObj [("command", JStr "")])))
         env_healthy []) =
    inr (mkHttp 400 (Error (Said "Missing command parameter"))) /\
  fst (cmd_handler lwm2m_client (mkRequest (inr (JObj [("command", JStr "")])))
         env_healthy []) = [].
Proof.
  split; [reflexivity | ].
  apply (proj2 (cmd_handler_client_error lwm2m_client
                  (mkRequest (inr (JObj [("command", JStr "")])))
                  env_healthy [] _ eq_refl)).
  reflexivity.
Defined.

(** ** All handlers *)

(** X8: no handler lets an exception through to the listener: each one
    answers every request in every environment, [reg_handler] and
    [info_handler] with status 200 or 500, [cmd_handler] with 200, 400
    or 500. *)
Theorem handlers_answer_with_status self req env tr :
  (exists http,
     snd (reg_handler self req env tr) = inr http /\
     (status http = 200 \/ status http = 500)%Z) /\
  (exists http,
     snd (cmd_handler self req env tr) = inr http /\
     (status http = 200 \/ status http = 400 \/ status http = 500)%Z) /\
  (exists http,
     snd (info_handler self req env tr) = inr http /\
     (status http = 200 \/ status http = 500)%Z).
Proof.
  split; [ | split].
  - rewrite reg_handler_run.
    destruct (register self _ env tr) as [evs [e | resp]];
      eexists; (split; [reflexivity | cbn; auto]).
  - rewrite cmd_handler_run.
    destruct (json_of req) as [e | data];
      [eexists; split; [reflexivity | cbn; auto] | ].
    destruct (py_get data "command") as [e | command];
      [eexists; split; [reflexivity | cbn; auto] | ].
    destruct (truthy command);
      [ | eexists; split; [reflexivity | cbn; auto]].
    destruct (execute_command self command env tr) as [evs [e | resp]];
      eexists; (split; [reflexivity | cbn; auto]).
  - rewrite info_handler_run.
    destruct (get_device_info self env tr) as [evs [e | info]];
      eexists; (split; [reflexivity | cbn; auto]).
Qed.

(** X9: when the messaging context cannot be created, every handler
    that reaches its operation answers with status 500 and the text of
    that failure, and no exchange is issued: [reg_handler] and
    [info_handler] on every request, [cmd_handler] on every request with
    a truthy [command]. *)
Theorem handlers_report_context_failure self req env tr e :
  create_outcome env tr "0.0.0.0" (coap_port self) = Some e ->
  let failure :=
    ([EvContext "0.0.0.0" (coap_port self) (inl e)],
     @inr Exn _ (mkHttp 500 (Error (Str e)))) in
  reg_handler self req env tr = failure /\
  info_handler self req env tr = failure /\
  (forall data command,
     json_of req = inr data ->
     py_get data "command" = inr command ->
     truthy command = true ->
     cmd_handler self req env tr = failure).
Proof.
  intros H failure. split; [ | split].
  - rewrite reg_handler_run, (register_without_context _ _ _ _ _ H).
    reflexivity.
  - rewrite info_handler_run, (get_device_info_fails _ _ _ _ H).
    reflexivity.
  - intros data command Hreq Hget Ht.
    rewrite cmd_handler_run, Hreq, Hget, Ht,
      (execute_command_without_context _ _ _ _ _ H).
    reflexivity.
Qed.

Lemma handlers_report_context_failure_witness :
  create_outcome env_no_context [] "0.0.0.0" (coap_port lwm2m_client) =
    Some (LibraryError "bind failed") /\
  reg_handler lwm2m_client (mkRequest (inr (JObj []))) env_no_context [] =
  ([EvContext "0.0.0.0" 56830 (inl (LibraryError "bind failed"))],
   inr (mkHttp 500 (Error (Str (LibraryError "bind failed"))))).
Proof.
  split; [reflexivity | ].
  apply (handlers_report_context_failure lwm2m_client
           (mkRequest (inr (JObj []))) env_no_context []
           (LibraryError "bind failed") eq_refl).
Defined.

(** ** What the operations send *)

(** X10: whatever the command and whatever the environment,
    [execute_command] issues at most one exchange, and only for one of
    the three command names: it is then the POST to the path of that
    name, without query and without payload. *)
Theorem execute_command_only_posts_commands self command env tr :
  List.length (exchanges (fst (execute_command self command env tr))) <= 1 /\
  forall msg,
    In msg (exchanges (fst (execute_command self command env tr))) ->
    exists name path,
      command = JStr name /\
      In (name, path) command_table /\
      msg = {| code := POST; uri := coap_uri self path;
               uri_query := None; payload := None |}.
Proof.
  destruct (create_outcome env tr "0.0.0.0" (coap_port self)) as [e | ] eqn:H.
  { rewrite (execute_command_without_context self command env tr e H).
    split; [cbn; lia | intros msg []]. }
  assert (Hknown : forall name path,
    command = JStr name ->
    dict_lookup name command_table = Some path ->
    In (name, path) command_table ->
    List.length (exchanges (fst (execute_command self command env tr))) <= 1
    /\ forall msg,
      In msg (exchanges (fst (execute_command self command env tr))) ->
      exists name path,
        command = JStr name /\ In (name, path) command_table /\
        msg = {| code := POST; uri := coap_uri self path;
                 uri_query := None; payload := None |}).
  { intros name path -> Hp Hin.
    rewrite (execute_known_run self env tr name path H Hp).
    split; [cbn; lia | ].
    intros msg [<- | []]. exists name, path. auto. }
  destruct (eq_str command "reboot") eqn:H1.
  { apply (Hknown "reboot" "/3/0/4" (eq_str_true _ _ H1) eq_refl).
    cbn; auto. }
  destruct (eq_str command "factory_reset") eqn:H2.
  { apply (Hknown "factory_reset" "/3/0/5" (eq_str_true _ _ H2) eq_refl).
    cbn; auto. }
  destruct (eq_str command "firmware_update") eqn:H3.
  { apply (Hknown "firmware_update" "/5/0/2" (eq_str_true _ _ H3) eq_refl).
    cbn; auto. }
  rewrite (execute_unknown_run self env tr command H1 H2 H3), H.
  split; [cbn; lia | intros msg []].
Qed.

Lemma execute_command_only_posts_commands_witness :
  In (command_message lwm2m_client "/5/0/2")
     (exchanges (fst (execute_command lwm2m_client (JStr "firmware_update")
                        env_silent []))) /\
  exists name path,
    JStr "firmware_update" = JStr name /\
    In (name, path) command_table /\
    command_message lwm2m_client "/5/0/2" =
    {| code := POST; uri := coap_uri lwm2m_client path;
       uri_query := None; payload := None |}.
Proof.
  assert (Hin : In (command_message lwm2m_client "/5/0/2")
                   (exchanges (fst (execute_command lwm2m_client
                      (JStr "firmware_update") env_silent []))))
    by (left; reflexivity).
  split; [exact Hin | ].
  apply (proj2 (execute_command_only_posts_commands lwm2m_client
                  (JStr "firmware_update") env_silent []) _ Hin).
Defined.

(** X11: [get_device_info] only reads: whatever the environment, every
    exchange it issues is a GET without query and without payload, to
    the path of an entry of [LWM2M_OBJECTS] other than [power]. *)
Theorem get_device_info_only_reads self env tr msg :
  In msg (exchanges (fst (get_device_info self env tr))) ->
  code msg = GET /\
  uri_query msg = None /\
  payload msg = None /\
  exists key path,
    In (key, path) LWM2M_OBJECTS /\
    key <> "power" /\
    uri msg = coap_uri self path.
Proof.
  destruct (create_outcome env tr "0.0.0.0" (coap_port self)) as [e | ] eqn:H.
  { rewrite (get_device_info_fails self env tr e H). intros []. }
  destruct (get_device_info_shape self env tr H)
    as (reads & os & Heq & _ & _ & He & _).
  rewrite Heq. cbn [fst exchanges flat_map app]. fold (exchanges reads).
  rewrite He. unfold info_paths. cbn [map In].
  intros Hin.
  repeat (destruct Hin as [<- | Hin];
          [repeat split; eexists; eexists;
           (split; [ | split; [ | reflexivity]]);
           [cbn; tauto | discriminate] | ]).
  destruct Hin.
Qed.

Lemma get_device_info_only_reads_witness :
  In (get_message lwm2m_client "/6/0")
     (exchanges (fst (get_device_info lwm2m_client env_silent []))) /\
  code (get_message lwm2m_client "/6/0") = GET.
Proof.
  assert (Hin : In (get_message lwm2m_client "/6/0")
                   (exchanges (fst (get_device_info lwm2m_client
                                      env_silent []))))
    by (vm_compute; tauto).
  split; [exact Hin | ].
  apply (get_device_info_only_reads lwm2m_client env_silent [] _ Hin).
Defined.

(** ** The snapshot *)

(** X12: in a snapshot, a field holds the unavailable marker exactly
    when its own read raised, however the other reads ended; a read that
    was answered leaves the decoded payload, even an empty one, which is
    never taken for the marker. *)
Theorem field_is_marked_iff_read_raised self env tr evs info j key o :
  get_device_info self env tr = (evs, inr info) ->
  nth_error info_keys j = Some key ->
  nth_error (outcomes evs) j = Some o ->
  (dict_lookup key info = Some None <-> exists e, o = inl e) /\
  (forall resp,
     o = inr resp ->
     dict_lookup key info = Some (Some (decode_ignore (resp_payload resp)))).
Proof.
  intros Hrun Hj Ho.
  destruct (snapshot_lookup self env tr evs info Hrun) as (_ & _ & Hlook).
  destruct (Hlook j key Hj) as (o' & Ho' & Hf).
  rewrite Ho in Ho'. injection Ho' as <-. rewrite Hf.
  split; [ | intros resp ->; reflexivity].
  destruct o as [e | resp]; cbn [field_of]; split.
  - intros _. exists e. reflexivity.
  - reflexivity.
  - discriminate.
  - intros [e He]. discriminate He.
Qed.

Lemma field_is_marked_iff_read_raised_witness :
  exists evs info,
    get_device_info lwm2m_client env_network_down [] = (evs, inr info) /\
    nth_error (outcomes evs) 3 = Some (inl (LibraryError "timeout")) /\
    dict_lookup "network" info = Some None.
Proof.
  eexists. eexists. split; [vm_compute; reflexivity | ].
  split; [vm_compute; reflexivity | ].
  apply (proj1 (field_is_marked_iff_read_raised lwm2m_client
                  env_network_down [] _ _ 3 "network"
                  (inl (LibraryError "timeout"))
                  eq_refl eq_refl eq_refl)).
  eexists. reflexivity.
Defined.

(** X13: [get_device_info] raises nothing but the failure of its
    context: no lookup in [LWM2M_OBJECTS] fails and no error of a read
    escapes, so when it raises, the creation of the context raised that
    very exception and nothing else happened. *)
Theorem get_device_info_raises_only_context_failure self env tr evs e :
  get_device_info self env tr = (evs, inl e) ->
  create_outcome env tr "0.0.0.0" (coap_port self) = Some e /\
  evs = [EvContext "0.0.0.0" (coap_port self) (inl e)].
Proof.
  intros Hrun.
  destruct (create_outcome env tr "0.0.0.0" (coap_port self)) as [e' | ] eqn:H.
  - rewrite (get_device_info_fails self env tr e' H) in Hrun.
    injection Hrun as <- <-. auto.
  - destruct (get_device_info_shape self env tr H) as (reads & os & Heq & _).
    rewrite Heq in Hrun. discriminate Hrun.
Qed.

Lemma get_device_info_raises_only_context_failure_witness :
  get_device_info lwm2m_client env_no_context [] =
    ([EvContext "0.0.0.0" 56830 (inl (LibraryError "bind failed"))],
     inl (LibraryError "bind failed")) /\
  create_outcome env_no_context [] "0.0.0.0" (coap_port lwm2m_client) =
    Some (LibraryError "bind failed").
Proof.
  split; [reflexivity | ].
  apply (get_device_info_raises_only_context_failure lwm2m_client
           env_no_context [] _ _ eq_refl).
Defined.

(** X14: [info_handler] answers with status 200 exactly when the
    messaging context could be created, whatever the reads do; its
    events are those of [get_device_info]. *)
Theorem info_handler_succeeds_iff_context self req env tr :
  exists http,
    info_handler self req env tr =
      (fst (get_device_info self env tr), inr http) /\
    (status http = 200%Z <->
     create_outcome env tr "0.0.0.0" (coap_port self) = None).
Proof.
  rewrite info_handler_run.
  destruct (create_outcome env tr "0.0.0.0" (coap_port self)) as [e | ] eqn:H.
  - rewrite (get_device_info_fails self env tr e H).
    eexists. split; [reflexivity | ]. split; discriminate.
  - destruct (get_device_info_shape self env tr H) as (reads & os & Heq & _).
    rewrite Heq. eexists. split; [reflexivity | ]. split; reflexivity.
Qed.

Lemma string_app_inv_head (a b c : string) :
  (a ++ b)%string = (a ++ c)%string -> b = c.
Proof.
  induction a as [ | x a IH]; cbn; [auto | ].
  intros [= H]. exact (IH H).
Qed.

Lemma coap_uri_injective self p q :
  coap_uri self p = coap_uri self q -> p = q.
Proof.
  unfold coap_uri. intros H.
  do 4 apply string_app_inv_head in H. exact H.
Qed.

Lemma nodup_map_injective {A B} (f : A -> B) l :
  (forall x y, f x = f y -> x = y) -> NoDup l -> NoDup (map f l).
Proof.
  intros Hf. induction 1 as [ | x l Hx _ IH]; cbn; constructor; [ | exact IH].
  intros Hin. apply in_map_iff in Hin as (y & Hy & Hin).
  apply Hf in Hy. subst y. contradiction.
Qed.

(** X15: for every server address, port and endpoint, the URI built for
    a path determines the path, so the reads of one [get_device_info]
    call go to pairwise different URIs: no resource is read twice. *)
Theorem reads_go_to_distinct_uris self env tr :
  (forall p q, coap_uri self p = coap_uri self q -> p = q) /\
  NoDup (map uri (exchanges (fst (get_device_info self env tr)))).
Proof.
  split; [apply coap_uri_injective | ].
  destruct (create_outcome env tr "0.0.0.0" (coap_port self)) as [e | ] eqn:H.
  { rewrite (get_device_info_fails self env tr e H). constructor. }
  destruct (get_device_info_shape self env tr H)
    as (reads & os & Heq & _ & _ & He & _).
  rewrite Heq. cbn [fst exchanges flat_map app]. fold (exchanges reads).
  rewrite He, map_map. cbn [get_message uri].
  apply nodup_map_injective; [apply coap_uri_injective | ].
  unfold info_paths.
  repeat (constructor; [cbn; intros Hin;
                        repeat (destruct Hin as [Hin | Hin];
                                [discriminate Hin | ]);
                        exact Hin | ]).
  constructor.
Qed.

Lemma reads_go_to_distinct_uris_witness :
  NoDup (map uri (exchanges (fst (get_device_info lwm2m_client
                                    env_healthy [])))) /\
  List.length (map uri (exchanges (fst (get_device_info lwm2m_client
                                          env_healthy [])))) = 7.
Proof.
  split; [ | reflexivity].
  apply (reads_go_to_distinct_uris lwm2m_client env_healthy []).
Defined.

(** X16: whenever [register] issues its exchange, what it returns or
    raises is exactly what that exchange gave: the response is handed
    back untouched, whatever its status, and an exception of the
    exchange is not caught. *)
Theorem register_returns_exchange_outcome self params env tr :
  exchanges (fst (register self params env tr)) <> [] ->
  outcomes (fst (register self params env tr)) =
  [snd (register self params env tr)].
Proof.
  destruct (create_outcome env tr "0.0.0.0" (coap_port self)) as [e | ] eqn:H.
  { rewrite (register_without_context self params env tr e H).
    intros Hne. contradiction Hne; reflexivity. }
  destruct params as [ | b | n | s | items | d].
  6:{ pose proof (register_dict_run self env tr d H) as Hrun.
      cbv zeta in Hrun. rewrite Hrun.
      destruct (dict_lookup "objects" d) as [[ | | | | items | ] | ];
        try reflexivity.
      destruct (strings_of items) as [objs | ]; [reflexivity | ].
      intros Hne. contradiction Hne; reflexivity. }
  all: match goal with
       | |- context [register _ ?p _ _] =>
         rewrite (register_non_dict_run self p env tr H I)
       end;
    match goal with
    | |- context [py_in ?s ?v] => destruct (py_in s v) as [e | [ | ]]
    end;
    first [reflexivity | intros Hne; contradiction Hne; reflexivity].
Qed.

Lemma register_returns_exchange_outcome_witness :
  exchanges (fst (register lwm2m_client (JObj []) env_silent [])) <> [] /\
  outcomes (fst (register lwm2m_client (JObj []) env_silent [])) =
    [inl (LibraryError "timeout")].
Proof.
  assert (Hne : exchanges (fst (register lwm2m_client (JObj [])
                                  env_silent [])) <> [])
    by discriminate.
  split; [exact Hne | ].
  rewrite (register_returns_exchange_outcome lwm2m_client (JObj [])
             env_silent [] Hne).
  reflexivity.
Defined.

(** ** Decoded payloads *)

Lemma subseq_length {A} (l1 l2 : list A) :
  subseq l1 l2 -> List.length l1 <= List.length l2.
Proof. induction 1; cbn; lia. Qed.

Lemma encode_length t : List.length t <= List.length (encode t).
Proof.
  induction t as [ | c t IH]; [reflexivity | ].
  unfold encode in *. cbn [flat_map]. rewrite length_app.
  pose proof (encode_point_length c). cbn [List.length]. lia.
Qed.

(** X17: a decoded payload never has more characters than the payload
    has bytes. *)
Theorem decoded_text_is_not_longer bs :
  List.length (decode_ignore bs) <= List.length bs.
Proof.
  destruct (decode_ignore_drops _ bs (le_n _)) as [Hsub _].
  apply subseq_length in Hsub.
  pose proof (encode_length (decode_ignore bs)). lia.
Qed.

(** X18: well-formed text at the head of a payload is decoded to itself
    whatever follows it: ill-formed bytes further on do not damage what
    comes before them. *)
Theorem decode_keeps_well_formed_prefix t bs :
  Forall (fun c => is_scalar c = true) t ->
  decode_ignore (encode t ++ bs) = t ++ decode_ignore bs.
Proof.
  unfold decode_ignore.
  induction 1 as [ | c t Hc _ IH]; [reflexivity | ].
  unfold encode in *. cbn [flat_map]. rewrite <- app_assoc.
  rewrite (decode_with_read [] _ c (flat_map encode_point t ++ bs)).
  - rewrite IH. reflexivity.
  - apply read_sequence_complete, Hc.
Qed.

Lemma decode_keeps_well_formed_prefix_witness :
  Forall (fun c => is_scalar c = true) [0x4F; 0x20AC]%N /\
  decode_ignore (encode [0x4F; 0x20AC]%N ++ [xff; x4b]) =
  [0x4F; 0x20AC; 0x4B]%N.
Proof.
  assert (Hs : Forall (fun c => is_scalar c = true) [0x4F; 0x20AC]%N)
    by (repeat constructor).
  split; [exact Hs | ].
  rewrite (decode_keeps_well_formed_prefix [0x4F; 0x20AC]%N [xff; x4b] Hs).
  reflexivity.
Defined.

(** X19: decoding is stable: encoding a decoded payload and decoding it
    again gives the same text, so what a handler hands out can be
    encoded as UTF-8 and read back without loss. *)
Theorem decoded_text_round_trips bs :
  decode_ignore (encode (decode_ignore bs)) = decode_ignore bs.
Proof.
  destruct (decode_ignore_drops _ bs (le_n _)) as [_ Hall].
  apply (decode_encode [] _ Hall).
Qed.

(** X20: a payload of ASCII bytes is decoded byte for byte. *)
Theorem decode_ascii bs :
  Forall (fun x => (Byte.to_N x < 0x80)%N) bs ->
  decode_ignore bs = map Byte.to_N bs.
Proof.
  unfold decode_ignore.
  induction 1 as [ | x bs Hx _ IH]; [reflexivity | ].
  cbn [decode_with map]. cbv zeta.
  apply N.ltb_lt in Hx. rewrite Hx, IH. reflexivity.
Qed.

Lemma decode_ascii_witness :
  Forall (fun x => (Byte.to_N x < 0x80)%N) (list_byte_of_string "97%") /\
  decode_ignore (list_byte_of_string "97%") = [57; 55; 37]%N.
Proof.
  assert (Ha : Forall (fun x => (Byte.to_N x < 0x80)%N)
                 (list_byte_of_string "97%"))
    by (repeat constructor).
  split; [exact Ha | ].
  rewrite (decode_ascii _ Ha). reflexivity.
Defined.
